(** * YehagerBet betting API: a shallow embedding of [main.py]

    The handlers of [main.py] are embedded as functions of a small
    state-and-exception monad over a [World] made of the global datastore
    handle [db] (which may be [None]) and a clock read by [now_utc].
    Amounts are Python floats, that is IEEE 754 binary64 values, and are
    modelled by Rocq's primitive floats. *)

From Stdlib Require Import ZArith NArith List String Ascii Bool Lia.
From Stdlib Require Import Permutation Sorted.
From Stdlib Require Import Floats Uint63.
Import ListNotations.
Open Scope string_scope.
Open Scope list_scope.

(* ================================================================= *)
(** ** Python floats *)

Module PyFloat.

(** [float(n)] for an integer that a double represents exactly. *)
Definition of_Z (n : Z) : float := PrimFloat.of_uint63 (Uint63.of_Z n).

(** Nearest integer to [num / den] for [0 <= num] and [0 < den], ties going
    to the even neighbour. *)
Definition round_half_even (num den : Z) : Z :=
  let q := (num / den)%Z in
  let r := (num mod den)%Z in
  match (2 * r ?= den)%Z with
  | Lt => q
  | Gt => (q + 1)%Z
  | Eq => if Z.even q then q else (q + 1)%Z
  end.

(** The integer number of hundredths nearest to the exact value
    [m * 2^e] of a finite double. *)
Definition hundredths (m : positive) (e : Z) : Z :=
  if (0 <=? e)%Z then (Zpos m * 2 ^ e * 100)%Z
  else round_half_even (Zpos m * 100) (2 ^ (- e)).

(** Python's [round(x, 2)] on a float.  CPython prints [x] to the
    correctly rounded decimal with two fractional digits and reads that
    decimal back as the nearest double; NaN, infinities and zeros are
    returned as they are and the sign is kept.  With [n] the number of
    hundredths, the nearest double to [n / 100] is the IEEE quotient when
    [n] is below [2^53]; above, doubles are spaced by at least [2^-6], so
    the decimal reads back as [x] itself. *)
Definition round2 (x : float) : float :=
  match Prim2SF x with
  | S754_finite s m e =>
      let n := hundredths m e in
      if (n <? 2 ^ 53)%Z then
        let r := PrimFloat.div (of_Z n) (of_Z 100) in
        if s then PrimFloat.opp r else r
      else x
  | _ => x
  end.

(** [math.isfinite]. *)
Definition isfinite (x : float) : bool :=
  match Prim2SF x with
  | S754_zero _ | S754_finite _ _ _ => true
  | _ => false
  end.

End PyFloat.

(* ================================================================= *)
(** ** bson object identifiers *)

(** A stored identifier is a 12-byte value, kept here as the number it
    spells in hexadecimal; [str(oid)] prints its 24 lowercase digits.
    [ObjectId(s)] on a string raises [InvalidId] unless [len(s) == 24] and
    [bytes.fromhex(s)] succeeds.  [bytes.fromhex] reads two hexadecimal
    digits of either case per byte and skips ASCII whitespace before a
    byte, so a string of 24 characters with whitespace in it is accepted
    and gives fewer than 12 bytes: a value equal to no stored identifier.
    A string is kept as its bytes; one with a character outside ASCII is
    refused whichever way its length is counted, since such a character is
    no hexadecimal digit. *)
Module Bson.

Definition oid := N.

(** What the constructor makes of an accepted string. *)
Inductive parsed : Type :=
| Oid12 (o : oid)
| ShortId.

Definition hex_val (c : ascii) : option N :=
  let n := N_of_ascii c in
  if ((48 <=? n) && (n <=? 57))%N then Some (n - 48)%N
  else if ((97 <=? n) && (n <=? 102))%N then Some (n - 87)%N
  else if ((65 <=? n) && (n <=? 70))%N then Some (n - 55)%N
  else None.

(** Space, and tab to carriage return. *)
Definition is_space (c : ascii) : bool :=
  let n := N_of_ascii c in
  (n =? 32)%N || ((9 <=? n) && (n <=? 13))%N.

(** [bytes.fromhex]: the number of bytes read and the number they
    spell. *)
Fixpoint fromhex (s : string) (acc : N) (count : nat) : option (nat * N) :=
  match s with
  | EmptyString => Some (count, acc)
  | String c rest =>
      if is_space c then fromhex rest acc count
      else
        match hex_val c, rest with
        | Some top, String c' rest' =>
            match hex_val c' with
            | Some bot =>
                fromhex rest' (256 * acc + (16 * top + bot))%N (S count)
            | None => None
            end
        | _, _ => None
        end
  end.

Definition ObjectId (s : string) : option parsed :=
  if Nat.eqb (String.length s) 24 then
    match fromhex s 0%N 0%nat with
    | Some (count, n) =>
        if Nat.eqb count 12 then Some (Oid12 n) else Some ShortId
    | None => None
    end
  else None.

Definition hex_char (d : N) : ascii :=
  if (d <? 10)%N then ascii_of_N (48 + d) else ascii_of_N (87 + d).

Fixpoint hex_digits (width : nat) (n : N) (acc : string) : string :=
  match width with
  | O => acc
  | S w => hex_digits w (n / 16)%N (String (hex_char (n mod 16)%N) acc)
  end.

Definition str (o : oid) : string := hex_digits 24 o EmptyString.

End Bson.

(* ================================================================= *)
(** ** Request models ([main.py], pydantic) *)

Record RegisterRequest := {
  reg_name : string;
  reg_phone : string
}.

Record LoginRequest := {
  login_phone : string
}.

(** [amount: float = Field(..., gt=0)]: the framework rejects a body that
    violates the constraint before the handler is called. *)
Record TopupRequest := {
  topup_user_id : string;
  topup_amount : float
}.

Definition TopupRequest_valid (p : TopupRequest) : bool :=
  PrimFloat.ltb 0 (topup_amount p).

Record BetSelection := {
  sel_match_id : string;
  sel_market : string;
  sel_odds : float;
  sel_description : string
}.

(** [stake: float = Field(..., gt=0)]. *)
Record PlaceBetRequest := {
  bet_user_id : string;
  bet_stake : float;
  bet_selections : list BetSelection
}.

Definition PlaceBetRequest_valid (p : PlaceBetRequest) : bool :=
  PrimFloat.ltb 0 (bet_stake p).

(* ================================================================= *)
(** ** Stored documents and the datastore *)

(** Timestamps are microseconds since the epoch. *)
Definition datetime := Z.

(** A datetime as the datastore keeps it: a BSON date has milliseconds,
    the microseconds below them are dropped when a document is written.
    The documents of the model are the stored ones, so a handler that
    writes a reading of the clock writes [bson_datetime] of it. *)
Definition bson_datetime (t : datetime) : datetime := (t - t mod 1000)%Z.

Record UserDoc := {
  u_id : Bson.oid;
  u_name : string;
  u_phone : string;
  u_balance : float;
  u_is_active : bool;
  u_created_at : datetime;
  u_updated_at : datetime
}.

Record MatchDoc := {
  m_id : Bson.oid;
  m_sport : string;
  m_league : string;
  m_home_team : string;
  m_away_team : string;
  m_start_time : datetime;
  m_status : string;
  m_odds : list (string * float);
  m_created_at : datetime;
  m_updated_at : datetime
}.

Record BetDoc := {
  b_id : Bson.oid;
  b_user_id : string;
  b_stake : float;
  b_selections : list BetSelection;
  b_potential_return : float;
  b_status : string;
  b_created_at : datetime;
  b_updated_at : datetime
}.

Record WalletTransactionDoc := {
  t_id : Bson.oid;
  t_user_id : string;
  t_type : string;
  t_amount : float;
  t_balance_after : float;
  t_reference : option string;
  t_created_at : datetime;
  t_updated_at : datetime
}.

(** The four collections, each in insertion order, and the next identifier
    the datastore will assign. *)
Record Database := {
  user : list UserDoc;
  match_ : list MatchDoc;
  bet : list BetDoc;
  wallettransaction : list WalletTransactionDoc;
  next_oid : N
}.

Definition empty_database : Database :=
  {| user := []; match_ := []; bet := []; wallettransaction := [];
     next_oid := 0%N |}.

(** The global [db] of [database.py] ([None] when the datastore is
    unavailable) and the wall clock: the readings it will give, in the
    order they are taken.  Nothing is assumed of them: two readings may be
    equal, and more of them are once cut to milliseconds. *)
Record World := {
  db : option Database;
  clock : nat -> datetime
}.

(** The clock after [k] readings. *)
Definition later (k : nat) (c : nat -> datetime) : nat -> datetime :=
  fun n => c (k + n)%nat.

(* ================================================================= *)
(** ** Handlers as state transformers that may raise *)

(** [fastapi.HTTPException(status_code, detail)]. *)
Record HTTPException := {
  status_code : Z;
  detail : string
}.

Inductive Outcome (A : Type) : Type :=
| Return (a : A)
| Raise (e : HTTPException).

Arguments Return {A} a.
Arguments Raise {A} e.

(** A raised exception keeps whatever was written before it: nothing rolls
    the datastore back. *)
Definition Handler (A : Type) : Type := World -> Outcome A * World.

Definition ret {A} (a : A) : Handler A := fun w => (Return a, w).

Definition raise {A} (code : Z) (msg : string) : Handler A :=
  fun w => (Raise {| status_code := code; detail := msg |}, w).

Definition bind {A B} (m : Handler A) (k : A -> Handler B) : Handler B :=
  fun w =>
    match m w with
    | (Return a, w') => k a w'
    | (Raise e, w') => (Raise e, w')
    end.

Declare Scope handler_scope.
Delimit Scope handler_scope with handler.
Notation "x <- m ;; k" := (bind m (fun x => k))
  (at level 100, m at next level, right associativity) : handler_scope.
Notation "m ;;; k" := (bind m (fun _ => k))
  (at level 100, right associativity) : handler_scope.
Open Scope handler_scope.

Definition database_unavailable : HTTPException :=
  {| status_code := 500; detail := "Database not available" |}.

(** [if db is None: raise HTTPException(status_code=500, ...)]. *)
Definition require_db : Handler unit :=
  fun w =>
    match db w with
    | None => (Raise database_unavailable, w)
    | Some _ => (Return tt, w)
    end.

(** [now_utc()]: the next reading of the clock. *)
Definition now_utc : Handler datetime :=
  fun w => (Return (clock w 0%nat),
            {| db := db w; clock := later 1 (clock w) |}).

(** [.replace(microsecond=0)]. *)
Definition replace_microsecond_0 (t : datetime) : datetime :=
  (t - t mod 1000000)%Z.

(** An operation on a collection.  Subscripting a [None] handle is a Python
    [TypeError], which the framework answers with a plain 500; no handler
    reaches it, since each of them checks [db] first. *)
Definition with_db {A} (f : Database -> A * Database) : Handler A :=
  fun w =>
    match db w with
    | None =>
        (Raise {| status_code := 500; detail := "Internal Server Error" |}, w)
    | Some d =>
        let '(a, d') := f d in
        (Return a, {| db := Some d'; clock := clock w |})
    end.

(** *** Collection operations (pymongo) *)

Module Collection.

(** [find_one(filter)]: the first matching document. *)
Definition find_one {D} (p : D -> bool) (docs : list D) : option D :=
  List.find p docs.

(** [update_one(filter, {"$set": ...})]: rewrites the first match only. *)
Fixpoint update_one {D} (p : D -> bool) (f : D -> D) (docs : list D)
  : list D :=
  match docs with
  | [] => []
  | d :: rest => if p d then f d :: rest else d :: update_one p f rest
  end.

(** [.sort(key, -1)]: descending by an integer key; documents with equal
    keys come in the order they were inserted, as the datastore returns
    them.  [insert_desc] puts a document before the documents that follow
    it in the collection, already sorted. *)
Fixpoint insert_desc {D} (key : D -> Z) (d : D) (sorted : list D)
  : list D :=
  match sorted with
  | [] => [d]
  | x :: rest =>
      if (key x <=? key d)%Z then d :: x :: rest
      else x :: insert_desc key d rest
  end.

Definition sort_desc {D} (key : D -> Z) (docs : list D) : list D :=
  List.fold_right (insert_desc key) [] docs.

(** [.sort(key, 1)]: ascending, equal keys in insertion order. *)
Fixpoint insert_asc {D} (key : D -> Z) (d : D) (sorted : list D)
  : list D :=
  match sorted with
  | [] => [d]
  | x :: rest =>
      if (key d <=? key x)%Z then d :: x :: rest
      else x :: insert_asc key d rest
  end.

Definition sort_asc {D} (key : D -> Z) (docs : list D) : list D :=
  List.fold_right (insert_asc key) [] docs.

(** [Cursor.limit(n)]: a limit of 0 is equivalent to no limit; a negative
    limit returns at most [|n|] documents in a single batch. *)
Definition limit {D} (n : Z) (docs : list D) : list D :=
  match n with
  | Z0 => docs
  | Zpos k => List.firstn (Pos.to_nat k) docs
  | Zneg k => List.firstn (Pos.to_nat k) docs
  end.

End Collection.

Definition by_id (o : Bson.oid) (u : UserDoc) : bool := N.eqb (u_id u) o.

(** The filter [{"_id": oid}] for what [ObjectId] made of a string. *)
Definition by_object_id (q : Bson.parsed) : UserDoc -> bool :=
  match q with
  | Bson.Oid12 o => by_id o
  | Bson.ShortId => fun _ => false
  end.

Definition by_phone (phone : string) (u : UserDoc) : bool :=
  String.eqb (u_phone u) phone.

Definition find_one_user (p : UserDoc -> bool) : Handler (option UserDoc) :=
  with_db (fun d => (Collection.find_one p (user d), d)).

Definition update_one_user (p : UserDoc -> bool) (f : UserDoc -> UserDoc)
  : Handler unit :=
  with_db (fun d =>
    (tt, {| user := Collection.update_one p f (user d);
            match_ := match_ d; bet := bet d;
            wallettransaction := wallettransaction d;
            next_oid := next_oid d |})).

(** [insert_one(doc)]: the datastore assigns the identifier. *)
Definition insert_one_user (mk : Bson.oid -> UserDoc) : Handler Bson.oid :=
  with_db (fun d =>
    (next_oid d,
     {| user := user d ++ [mk (next_oid d)];
        match_ := match_ d; bet := bet d;
        wallettransaction := wallettransaction d;
        next_oid := N.succ (next_oid d) |})).

Definition insert_one_match (mk : Bson.oid -> MatchDoc) : Handler Bson.oid :=
  with_db (fun d =>
    (next_oid d,
     {| user := user d;
        match_ := match_ d ++ [mk (next_oid d)]; bet := bet d;
        wallettransaction := wallettransaction d;
        next_oid := N.succ (next_oid d) |})).

Definition insert_one_bet (mk : Bson.oid -> BetDoc) : Handler Bson.oid :=
  with_db (fun d =>
    (next_oid d,
     {| user := user d;
        match_ := match_ d; bet := bet d ++ [mk (next_oid d)];
        wallettransaction := wallettransaction d;
        next_oid := N.succ (next_oid d) |})).

Definition insert_one_wallettransaction (mk : Bson.oid -> WalletTransactionDoc)
  : Handler Bson.oid :=
  with_db (fun d =>
    (next_oid d,
     {| user := user d;
        match_ := match_ d; bet := bet d;
        wallettransaction := wallettransaction d ++ [mk (next_oid d)];
        next_oid := N.succ (next_oid d) |})).

Definition count_documents_match : Handler nat :=
  with_db (fun d => (List.length (match_ d), d)).

(* ================================================================= *)
(** ** Bootstrap: [seed_matches] *)

Local Set Warnings "-inexact-float".

(** The three dictionaries of [samples], before [created_at], [updated_at]
    and the identifier are added. *)
Definition sample_1 (start : datetime) (created updated : datetime)
  (o : Bson.oid) : MatchDoc :=
  {| m_id := o; m_sport := "football";
     m_league := "Ethiopian Premier League";
     m_home_team := "Saint George"; m_away_team := "Buna";
     m_start_time := start; m_status := "scheduled";
     m_odds := [("home_win", 1.85); ("draw", 3.2); ("away_win", 3.9)]%float;
     m_created_at := created; m_updated_at := updated |}.

Definition sample_2 (start : datetime) (created updated : datetime)
  (o : Bson.oid) : MatchDoc :=
  {| m_id := o; m_sport := "football";
     m_league := "Ethiopian Premier League";
     m_home_team := "Fasil Kenema"; m_away_team := "Wolaita Dicha";
     m_start_time := start; m_status := "scheduled";
     m_odds := [("home_win", 2.1); ("draw", 3.0); ("away_win", 3.4)]%float;
     m_created_at := created; m_updated_at := updated |}.

Definition sample_3 (start : datetime) (created updated : datetime)
  (o : Bson.oid) : MatchDoc :=
  {| m_id := o; m_sport := "basketball";
     m_league := "Ethiopia Cup";
     m_home_team := "Addis Lions"; m_away_team := "Hawassa Hawks";
     m_start_time := start; m_status := "scheduled";
     m_odds := [("home_win", 1.7); ("draw", 0.0); ("away_win", 2.2)]%float;
     m_created_at := created; m_updated_at := updated |}.

(** The body of [for m in samples]. *)
Fixpoint seed_loop
  (samples : list (datetime -> datetime -> Bson.oid -> MatchDoc))
  : Handler unit :=
  match samples with
  | [] => ret tt
  | m :: rest =>
      created <- now_utc ;;
      updated <- now_utc ;;
      _ <- insert_one_match
             (m (bson_datetime created) (bson_datetime updated)) ;;
      seed_loop rest
  end.

Definition seed_matches : Handler unit :=
  fun w =>
    match db w with
    | None => (Return tt, w)
    | Some _ =>
        (n <- count_documents_match ;;
         if Nat.ltb 0 n then ret tt
         else
           s1 <- now_utc ;;
           s2 <- now_utc ;;
           s3 <- now_utc ;;
           seed_loop [sample_1 (replace_microsecond_0 s1);
                      sample_2 (replace_microsecond_0 s2);
                      sample_3 (replace_microsecond_0 s3)]) w
    end.

(* ================================================================= *)
(** ** Users *)

Record UserResponse := {
  resp_user_id : string;
  resp_name : string;
  resp_phone : string;
  resp_balance : float
}.

Definition user_response (u : UserDoc) : UserResponse :=
  {| resp_user_id := Bson.str (u_id u); resp_name := u_name u;
     resp_phone := u_phone u; resp_balance := u_balance u |}.

Definition register_user (payload : RegisterRequest) : Handler UserResponse :=
  require_db ;;;
  exists_ <- find_one_user (by_phone (reg_phone payload)) ;;
  match exists_ with
  | Some _ => raise 400 "Phone already registered"
  | None =>
      created <- now_utc ;;
      updated <- now_utc ;;
      let mk o :=
        {| u_id := o; u_name := reg_name payload;
           u_phone := reg_phone payload; u_balance := 0%float;
           u_is_active := true;
           u_created_at := bson_datetime created;
           u_updated_at := bson_datetime updated |} in
      inserted_id <- insert_one_user mk ;;
      ret (user_response (mk inserted_id))
  end.

Definition login_user (payload : LoginRequest) : Handler UserResponse :=
  require_db ;;;
  found <- find_one_user (by_phone (login_phone payload)) ;;
  match found with
  | None => raise 404 "User not found"
  | Some u => ret (user_response u)
  end.

Definition get_user (user_id : string) : Handler UserResponse :=
  require_db ;;;
  match Bson.ObjectId user_id with
  | None => raise 400 "Invalid user id"
  | Some oid =>
      found <- find_one_user (by_object_id oid) ;;
      match found with
      | None => raise 404 "User not found"
      | Some u => ret (user_response u)
      end
  end.

(* ================================================================= *)
(** ** Wallet *)

Record TopupResponse := {
  topup_balance : float
}.

Definition set_balance (new_balance : float) (updated : datetime)
  (u : UserDoc) : UserDoc :=
  {| u_id := u_id u; u_name := u_name u; u_phone := u_phone u;
     u_balance := new_balance; u_is_active := u_is_active u;
     u_created_at := u_created_at u; u_updated_at := updated |}.

Definition topup_wallet (payload : TopupRequest) : Handler TopupResponse :=
  require_db ;;;
  match Bson.ObjectId (topup_user_id payload) with
  | None => raise 400 "Invalid user id"
  | Some oid =>
      found <- find_one_user (by_object_id oid) ;;
      match found with
      | None => raise 404 "User not found"
      | Some u =>
          let new_balance :=
            PrimFloat.add (u_balance u) (topup_amount payload) in
          updated <- now_utc ;;
          update_one_user (by_object_id oid)
            (set_balance new_balance (bson_datetime updated)) ;;;
          tx_created <- now_utc ;;
          tx_updated <- now_utc ;;
          _ <- insert_one_wallettransaction (fun i =>
            {| t_id := i; t_user_id := topup_user_id payload;
               t_type := "topup"; t_amount := topup_amount payload;
               t_balance_after := new_balance; t_reference := None;
               t_created_at := bson_datetime tx_created;
               t_updated_at := bson_datetime tx_updated |}) ;;
          ret {| topup_balance := new_balance |}
      end
  end.

Definition find_wallettransaction (p : WalletTransactionDoc -> bool)
  : Handler (list WalletTransactionDoc) :=
  with_db (fun d => (List.filter p (wallettransaction d), d)).

(** The items are the stored documents, their [_id] printed as a string. *)
Definition list_transactions (user_id : string) (limit : Z)
  : Handler (list WalletTransactionDoc) :=
  require_db ;;;
  rows <- find_wallettransaction
            (fun t => String.eqb (t_user_id t) user_id) ;;
  ret (Collection.limit limit (Collection.sort_desc t_created_at rows)).

(* ================================================================= *)
(** ** Matches *)

Definition find_match : Handler (list MatchDoc) :=
  with_db (fun d => (match_ d, d)).

(** Each item carries the fields of the stored match ([start_time] is sent
    in ISO 8601 form); the documents themselves stand for the items. *)
Definition list_matches : Handler (list MatchDoc) :=
  require_db ;;;
  rows <- find_match ;;
  ret (Collection.sort_asc m_start_time rows).

(* ================================================================= *)
(** ** Bets *)

Definition find_bet (p : BetDoc -> bool) : Handler (list BetDoc) :=
  with_db (fun d => (List.filter p (bet d), d)).

Definition list_bets (user_id : string) : Handler (list BetDoc) :=
  require_db ;;;
  rows <- find_bet (fun b => String.eqb (b_user_id b) user_id) ;;
  ret (Collection.sort_desc b_created_at rows).

Record PlaceBetResponse := {
  resp_bet_id : string;
  resp_potential_return : float;
  resp_bet_balance : float
}.

Definition invalid_odds : HTTPException :=
  {| status_code := 400; detail := "Invalid odds in selection" |}.

(** The loop [for s in payload.selections] with its accumulator
    [total_odds]; it leaves with the exception at the first selection whose
    odds are at most 1.0. *)
Fixpoint total_odds_loop (selections : list BetSelection)
  (total_odds : float) : Outcome float :=
  match selections with
  | [] => Return total_odds
  | s :: rest =>
      if PrimFloat.leb (sel_odds s) 1 then Raise invalid_odds
      else total_odds_loop rest (PrimFloat.mul total_odds (sel_odds s))
  end.

Definition lift_outcome {A} (o : Outcome A) : Handler A := fun w => (o, w).

Definition place_bet (payload : PlaceBetRequest) : Handler PlaceBetResponse :=
  require_db ;;;
  match Bson.ObjectId (bet_user_id payload) with
  | None => raise 400 "Invalid user id"
  | Some oid =>
      found <- find_one_user (by_object_id oid) ;;
      match found with
      | None => raise 404 "User not found"
      | Some u =>
          match bet_selections payload with
          | [] => raise 400 "No selections provided"
          | _ :: _ =>
              total_odds <-
                lift_outcome (total_odds_loop (bet_selections payload) 1) ;;
              let potential_return :=
                PyFloat.round2
                  (PrimFloat.mul (bet_stake payload) total_odds) in
              let balance := u_balance u in
              if PrimFloat.ltb balance (bet_stake payload)
              then raise 400 "Insufficient balance"
              else
                let new_balance :=
                  PyFloat.round2
                    (PrimFloat.sub balance (bet_stake payload)) in
                updated <- now_utc ;;
                update_one_user (by_object_id oid)
                  (set_balance new_balance (bson_datetime updated)) ;;;
                bet_created <- now_utc ;;
                bet_updated <- now_utc ;;
                bet_id <- insert_one_bet (fun i =>
                  {| b_id := i; b_user_id := bet_user_id payload;
                     b_stake := bet_stake payload;
                     b_selections := bet_selections payload;
                     b_potential_return := potential_return;
                     b_status := "pending";
                     b_created_at := bson_datetime bet_created;
                     b_updated_at := bson_datetime bet_updated |}) ;;
                tx_created <- now_utc ;;
                tx_updated <- now_utc ;;
                _ <- insert_one_wallettransaction (fun i =>
                  {| t_id := i; t_user_id := bet_user_id payload;
                     t_type := "bet_place";
                     t_amount := PrimFloat.opp (bet_stake payload);
                     t_balance_after := new_balance;
                     t_reference := Some (Bson.str bet_id);
                     t_created_at := bson_datetime tx_created;
                     t_updated_at := bson_datetime tx_updated |}) ;;
                ret {| resp_bet_id := Bson.str bet_id;
                       resp_potential_return := potential_return;
                       resp_bet_balance := new_balance |}
          end
      end
  end.

(* ================================================================= *)
(** ** Requests, runs and the ledger *)

(** One request to one of the [/api] endpoints. *)
Inductive Request : Type :=
| Register (payload : RegisterRequest)
| Login (payload : LoginRequest)
| GetUser (user_id : string)
| TopUp (payload : TopupRequest)
| ListTransactions (user_id : string) (limit : Z)
| ListMatches
| ListBets (user_id : string)
| PlaceBet (payload : PlaceBetRequest).

(** The world a request leaves behind, whether it returned or raised. *)
Definition serve (r : Request) (w : World) : World :=
  match r with
  | Register p => snd (register_user p w)
  | Login p => snd (login_user p w)
  | GetUser i => snd (get_user i w)
  | TopUp p => snd (topup_wallet p w)
  | ListTransactions i n => snd (list_transactions i n w)
  | ListMatches => snd (list_matches w)
  | ListBets i => snd (list_bets i w)
  | PlaceBet p => snd (place_bet p w)
  end.

Fixpoint run (rs : list Request) (w : World) : World :=
  match rs with
  | [] => w
  | r :: rest => run rest (serve r w)
  end.

(** The user document a handler resolves for an identifier. *)
Definition stored_user (o : Bson.oid) (w : World) : option UserDoc :=
  match db w with
  | None => None
  | Some d => Collection.find_one (by_id o) (user d)
  end.




(** A request whose new balance is not changed by the rounding to two
    decimals: every request but a [PlaceBet] that is accepted, and so
    reaches the deduction, with [round(balance - stake, 2)] different from
    [balance - stake].  A bet that is turned down rounds nothing. *)
Definition rounding_exact (r : Request) (w : World) : Prop :=
  match r with
  | PlaceBet p =>
      forall o u response w',
        place_bet p w = (Return response, w') ->
        Bson.ObjectId (bet_user_id p) = Some (Bson.Oid12 o) ->
        stored_user o w = Some u ->
        PyFloat.round2 (PrimFloat.sub (u_balance u) (bet_stake p))
        = PrimFloat.sub (u_balance u) (bet_stake p)
  | _ => True
  end.

Fixpoint exact_run (rs : list Request) (w : World) : Prop :=
  match rs with
  | [] => True
  | r :: rest => rounding_exact r w /\ exact_run rest (serve r w)
  end.

(** Selections the odds loop rejects and the product it accumulates. *)
Definition odds_rejected (s : BetSelection) : bool :=
  PrimFloat.leb (sel_odds s) 1.

Definition odds_product (selections : list BetSelection) (start : float)
  : float :=
  List.fold_left PrimFloat.mul (List.map sel_odds selections) start.

(** *** Sample data *)

Module Sample.

(** A clock read every 100 microseconds: ten readings in a row fall in
    one millisecond, and are stored as the same date. *)
Definition ticks : nat -> datetime :=
  fun n => (Z.of_nat n * 100 + 1700000000000000)%Z.

Definition fresh_world : World :=
  {| db := Some empty_database; clock := ticks |}.

Definition down_world : World :=
  {| db := None; clock := ticks |}.

Definition abebe : RegisterRequest :=
  {| reg_name := "Abebe"; reg_phone := "+251911000001" |}.

Definition kebede_same_phone : RegisterRequest :=
  {| reg_name := "Kebede"; reg_phone := "+251911000001" |}.

(** The identifier the datastore assigns first. *)
Definition abebe_id : string := "000000000000000000000000".

Definition registered : World := snd (register_user abebe fresh_world).

Definition topup (amount : float) : TopupRequest :=
  {| topup_user_id := abebe_id; topup_amount := amount |}.

Definition leg (odds : float) : BetSelection :=
  {| sel_match_id := "65f0c0ffee0000000000a001"; sel_market := "home_win";
     sel_odds := odds; sel_description := "Saint George to win" |}.

Definition wager (stake : float) (odds : list float) : PlaceBetRequest :=
  {| bet_user_id := abebe_id; bet_stake := stake;
     bet_selections := List.map leg odds |}.

(** Registration, then [TopUp 50], then [TopUp 25]. *)
Definition after_50 : World := snd (topup_wallet (topup 50) registered).
Definition after_75 : World := snd (topup_wallet (topup 25) after_50).

Definition after_75_database : Database :=
  match db after_75 with
  | Some d => d
  | None => empty_database
  end.

(** The user document after the two top-ups. *)
Definition abebe_with_75 : UserDoc :=
  {| u_id := 0%N; u_name := "Abebe"; u_phone := "+251911000001";
     u_balance := 75%float; u_is_active := true;
     u_created_at := 1700000000000000%Z;
     u_updated_at := 1700000000000000%Z |}.

(** After the two top-ups, a stake of 10 on odds 2.0 and 1.5. *)
Definition after_wager : World :=
  snd (place_bet (wager 10 [2; 1.5]%float) after_75).

Definition after_wager_database : Database :=
  match db after_wager with
  | Some d => d
  | None => empty_database
  end.


(** The requests that lead to [after_wager] and to [after_stake_5]. *)
Definition requests : list Request :=
  [Register abebe; TopUp (topup 50); TopUp (topup 25);
   PlaceBet (wager 10 [2; 1.5]%float)].


(** The user document after the stake of 10. *)
Definition abebe_with_65 : UserDoc :=
  {| u_id := 0%N; u_name := "Abebe"; u_phone := "+251911000001";
     u_balance := 65%float; u_is_active := true;
     u_created_at := 1700000000000000%Z;
     u_updated_at := 1700000000000000%Z |}.

(** The datastore with its three matches seeded, whose first user gets
    the fourth identifier; then a registration, a top-up of 10, a stake of
    20.004 (turned down: the balance is below it) and a stake of 4. *)
Definition seeded : World := snd (seed_matches fresh_world).

Definition seeded_database : Database :=
  match db seeded with
  | Some d => d
  | None => empty_database
  end.


Definition topup_of (user_id : string) (amount : float) : TopupRequest :=
  {| topup_user_id := user_id; topup_amount := amount |}.

Definition wager_of (user_id : string) (stake : float) (odds : list float)
  : PlaceBetRequest :=
  {| bet_user_id := user_id; bet_stake := stake;
     bet_selections := List.map leg odds |}.




(** Two users.  Abebe and Kebede register, a third registration with
    Abebe's phone is turned down, both top up, both place a bet, and a
    last bet of Kebede is turned down for its stake. *)
Definition kebede : RegisterRequest :=
  {| reg_name := "Kebede"; reg_phone := "+251911000002" |}.

Definition kebede_id : string := "000000000000000000000001".

Definition busy_requests : list Request :=
  [Register abebe; Register kebede; Register kebede_same_phone;
   TopUp (topup 50); TopUp (topup_of kebede_id 20);
   PlaceBet (wager 10 [2; 1.5]%float);
   PlaceBet (wager_of kebede_id 5 [3]%float);
   PlaceBet (wager_of kebede_id 100 [2]%float)].

Definition busy : World := run busy_requests fresh_world.

Definition busy_database : Database :=
  match db busy with
  | Some d => d
  | None => empty_database
  end.

(** Abebe's document in [busy]. *)
Definition abebe_busy : UserDoc :=
  {| u_id := 0%N; u_name := "Abebe"; u_phone := "+251911000001";
     u_balance := 40%float; u_is_active := true;
     u_created_at := 1700000000000000%Z;
     u_updated_at := 1700000000001000%Z |}.

Definition hana : RegisterRequest :=
  {| reg_name := "Hana"; reg_phone := "+251911000003" |}.

(** Registration, then a top-up of [inf] (a JSON body may spell it
    [Infinity] or [1e999]; it satisfies [gt=0]). *)
Definition after_infinity : World :=
  snd (topup_wallet (topup PrimFloat.infinity) registered).

End Sample.

(* ================================================================= *)
(** ** Auxiliary notions used in the statements *)

(** The reasons for which [place_bet] turns a request down once the
    datastore is there. *)
Inductive rejected (p : PlaceBetRequest) (w : World) : Prop :=
| rejected_malformed_id :
    Bson.ObjectId (bet_user_id p) = None -> rejected p w
| rejected_short_id :
    Bson.ObjectId (bet_user_id p) = Some Bson.ShortId -> rejected p w
| rejected_absent_user o :
    Bson.ObjectId (bet_user_id p) = Some (Bson.Oid12 o) ->
    stored_user o w = None -> rejected p w
| rejected_no_selection :
    bet_selections p = [] -> rejected p w
| rejected_odds :
    List.existsb odds_rejected (bet_selections p) = true -> rejected p w
| rejected_balance o u :
    Bson.ObjectId (bet_user_id p) = Some (Bson.Oid12 o) ->
    stored_user o w = Some u ->
    PrimFloat.ltb (u_balance u) (bet_stake p) = true -> rejected p w.

Definition phone_taken : HTTPException :=
  {| status_code := 400; detail := "Phone already registered" |}.

(** The user document [register_user] writes. *)
Definition new_user (p : RegisterRequest) (w : World) (d : Database)
  : UserDoc :=
  {| u_id := next_oid d; u_name := reg_name p; u_phone := reg_phone p;
     u_balance := 0%float; u_is_active := true;
     u_created_at := bson_datetime (clock w 0%nat);
     u_updated_at := bson_datetime (clock w 1%nat) |}.

Definition registered_world (p : RegisterRequest) (w : World) (d : Database)
  : World :=
  {| db := Some {| user := user d ++ [new_user p w d];
                   match_ := match_ d; bet := bet d;
                   wallettransaction := wallettransaction d;
                   next_oid := N.succ (next_oid d) |};
     clock := later 2 (clock w) |}.

(** What [place_bet] computes from the request and the user's balance. *)
Definition potential_return_of (p : PlaceBetRequest) : float :=
  PyFloat.round2
    (PrimFloat.mul (bet_stake p) (odds_product (bet_selections p) 1)).

Definition balance_after_bet (p : PlaceBetRequest) (u : UserDoc) : float :=
  PyFloat.round2 (PrimFloat.sub (u_balance u) (bet_stake p)).

(** The bet and the ledger row of an accepted request, and the world they
    are written to. *)
Definition placed_bet (p : PlaceBetRequest) (w : World) (d : Database)
  : BetDoc :=
  {| b_id := next_oid d; b_user_id := bet_user_id p;
     b_stake := bet_stake p; b_selections := bet_selections p;
     b_potential_return := potential_return_of p; b_status := "pending";
     b_created_at := bson_datetime (clock w 1%nat);
     b_updated_at := bson_datetime (clock w 2%nat) |}.

Definition placed_row (p : PlaceBetRequest) (w : World) (d : Database)
  (u : UserDoc) : WalletTransactionDoc :=
  {| t_id := N.succ (next_oid d); t_user_id := bet_user_id p;
     t_type := "bet_place"; t_amount := PrimFloat.opp (bet_stake p);
     t_balance_after := balance_after_bet p u;
     t_reference := Some (Bson.str (next_oid d));
     t_created_at := bson_datetime (clock w 3%nat);
     t_updated_at := bson_datetime (clock w 4%nat) |}.

Definition placed_world (p : PlaceBetRequest) (w : World) (d : Database)
  (o : Bson.oid) (u : UserDoc) : World :=
  {| db := Some
       {| user := Collection.update_one (by_id o)
                    (set_balance (balance_after_bet p u)
                       (bson_datetime (clock w 0%nat))) (user d);
          match_ := match_ d;
          bet := bet d ++ [placed_bet p w d];
          wallettransaction := wallettransaction d ++ [placed_row p w d u];
          next_oid := N.succ (N.succ (next_oid d)) |};
     clock := later 5 (clock w) |}.

Definition placed_response (p : PlaceBetRequest) (d : Database)
  (u : UserDoc) : PlaceBetResponse :=
  {| resp_bet_id := Bson.str (next_oid d);
     resp_potential_return := potential_return_of p;
     resp_bet_balance := balance_after_bet p u |}.

(** The rows [list_transactions] selects for a user id. *)
Definition rows_of (user_id : string) (d : Database)
  : list WalletTransactionDoc :=
  List.filter (fun t => String.eqb (t_user_id t) user_id)
    (wallettransaction d).

(* ================================================================= *)
(** ** Invariants of the datastore *)









(* ================================================================= *)
(** ** Notions for the further properties *)

(** The exceptions of the handlers, by the check that raises them. *)
Definition invalid_user_id : HTTPException :=
  {| status_code := 400; detail := "Invalid user id" |}.

Definition user_not_found : HTTPException :=
  {| status_code := 404; detail := "User not found" |}.

Definition no_selections : HTTPException :=
  {| status_code := 400; detail := "No selections provided" |}.

Definition insufficient_balance : HTTPException :=
  {| status_code := 400; detail := "Insufficient balance" |}.

(** The ledger row and the world of an accepted top-up. *)
Definition topped_row (p : TopupRequest) (w : World) (d : Database)
  (u : UserDoc) : WalletTransactionDoc :=
  {| t_id := next_oid d; t_user_id := topup_user_id p;
     t_type := "topup"; t_amount := topup_amount p;
     t_balance_after := PrimFloat.add (u_balance u) (topup_amount p);
     t_reference := None;
     t_created_at := bson_datetime (clock w 1%nat);
     t_updated_at := bson_datetime (clock w 2%nat) |}.

Definition topped_world (p : TopupRequest) (w : World) (d : Database)
  (o : Bson.oid) (u : UserDoc) : World :=
  {| db := Some
       {| user := Collection.update_one (by_id o)
                    (set_balance
                       (PrimFloat.add (u_balance u) (topup_amount p))
                       (bson_datetime (clock w 0%nat))) (user d);
          match_ := match_ d; bet := bet d;
          wallettransaction := wallettransaction d ++ [topped_row p w d u];
          next_oid := N.succ (next_oid d) |};
     clock := later 3 (clock w) |}.

(** The ways in which serving one request changes the world: the
    datastore stays as it is, a registration, a top-up or a bet. *)
Inductive transition (w w' : World) : Prop :=
| transition_none :
    db w' = db w -> transition w w'
| transition_register d p :
    db w = Some d ->
    Collection.find_one (by_phone (reg_phone p)) (user d) = None ->
    w' = registered_world p w d -> transition w w'
| transition_topup d p o u :
    db w = Some d ->
    Bson.ObjectId (topup_user_id p) = Some (Bson.Oid12 o) ->
    Collection.find_one (by_id o) (user d) = Some u ->
    w' = topped_world p w d o u -> transition w w'
| transition_bet d p o u :
    db w = Some d ->
    Bson.ObjectId (bet_user_id p) = Some (Bson.Oid12 o) ->
    Collection.find_one (by_id o) (user d) = Some u ->
    w' = placed_world p w d o u -> transition w w'.

(** Identifiers of users are below the next identifier. *)
Definition ids_assigned (d : Database) : Prop :=
  forall u, In u (user d) -> (u_id u < next_oid d)%N.

(** No two users share an identifier or a phone. *)
Definition unique_users (d : Database) : Prop :=
  NoDup (List.map u_id (user d)) /\ NoDup (List.map u_phone (user d)).

(** Every ledger row and every bet names a user of the datastore. *)
Definition owned (d : Database) : Prop :=
  (forall t, In t (wallettransaction d) ->
     exists o u, Bson.ObjectId (t_user_id t) = Some (Bson.Oid12 o) /\
                 Collection.find_one (by_id o) (user d) = Some u) /\
  (forall b, In b (bet d) ->
     exists o u, Bson.ObjectId (b_user_id b) = Some (Bson.Oid12 o) /\
                 Collection.find_one (by_id o) (user d) = Some u).

(** The rows of the bets in the ledger, and what ties such a row to its
    bet: the reference, the user id and the amount. *)
Definition is_bet_place (t : WalletTransactionDoc) : bool :=
  String.eqb (t_type t) "bet_place".

Definition row_link (t : WalletTransactionDoc)
  : option string * string * float :=
  (t_reference t, t_user_id t, t_amount t).

Definition bet_link (b : BetDoc) : option string * string * float :=
  (Some (Bson.str (b_id b)), b_user_id b, PrimFloat.opp (b_stake b)).

(** A row is a top-up row without reference or a bet row; the bet rows
    are, in the order they were written, the rows of the stored bets, one
    for each; and the bets have distinct identifiers, all assigned. *)
Definition ledger_linked (d : Database) : Prop :=
  (forall t, In t (wallettransaction d) ->
     (t_type t = "topup" /\ t_reference t = None) \/
     t_type t = "bet_place") /\
  List.map row_link (List.filter is_bet_place (wallettransaction d))
  = List.map bet_link (bet d) /\
  (forall b, In b (bet d) -> (b_id b < next_oid d)%N) /\
  NoDup (List.map b_id (bet d)).

(** [l'] extends [l] at its end. *)
Definition extends {A} (l l' : list A) : Prop := exists more, l' = l ++ more.

(** Nothing stored is removed or rewritten, but the balance and the
    [updated_at] of users. *)
Definition grows (d d' : Database) : Prop :=
  extends (wallettransaction d) (wallettransaction d') /\
  extends (bet d) (bet d') /\
  match_ d' = match_ d /\
  extends (List.map u_id (user d)) (List.map u_id (user d')) /\
  extends (List.map u_phone (user d)) (List.map u_phone (user d')) /\
  extends (List.map u_name (user d)) (List.map u_name (user d')) /\
  (next_oid d <= next_oid d')%N.

(** Newest first, and earliest first. *)
Definition newest_first {D} (key : D -> Z) (docs : list D) : Prop :=
  StronglySorted (fun a b => (key b <= key a)%Z) docs.

Definition earliest_first {D} (key : D -> Z) (docs : list D) : Prop :=
  StronglySorted (fun a b => (key a <= key b)%Z) docs.

(** The ledger row of the sample stake of 10. *)
Definition sample_wager_row : WalletTransactionDoc :=
  placed_row (Sample.wager 10 [2; 1.5]%float) Sample.after_75
    Sample.after_75_database Sample.abebe_with_75.

(** The user a request writes to, if any. *)
Definition request_user (r : Request) : option Bson.oid :=
  let named (s : string) :=
    match Bson.ObjectId s with
    | Some (Bson.Oid12 o) => Some o
    | _ => None
    end in
  match r with
  | TopUp p => named (topup_user_id p)
  | PlaceBet p => named (bet_user_id p)
  | _ => None
  end.

Definition sample_after_50_database : Database :=
  match db Sample.after_50 with
  | Some d => d
  | None => empty_database
  end.

(* ================================================================= *)
(** * Properties *)

(** ** Facts about binary64 arithmetic *)

Module PyFloatFacts.



Lemma shl_align_same (m : positive) (e : Z) : shl_align m e e = (m, e).
Proof. unfold shl_align. rewrite Z.sub_diag. reflexivity. Qed.

(** A finite double minus itself is [+0.0]. *)
Lemma sub_diag (x : float) :
  PyFloat.isfinite x = true -> PrimFloat.sub x x = 0%float.
Proof.
  intros Hfin. apply Prim2SF_inj. rewrite FloatAxioms.sub_spec.
  unfold PyFloat.isfinite in Hfin.
  destruct (Prim2SF x) as [s|s| |s m e]; try discriminate.
  - destruct s; reflexivity.
  - unfold SF64sub, SFsub. rewrite Z.min_id, shl_align_same. simpl fst.
    rewrite Z.sub_diag. reflexivity.
Qed.

Lemma SFcompare_refl (a : spec_float) : SFcompare a a <> Some Lt.
Proof.
  destruct a as [s|s| |s m e]; simpl; try discriminate.
  - destruct s; discriminate.
  - destruct s; rewrite Z.compare_refl, Pos.compare_cont_refl; simpl;
      discriminate.
Qed.

(** No double is below itself. *)
Lemma ltb_irrefl (x : float) : PrimFloat.ltb x x = false.
Proof.
  rewrite FloatAxioms.ltb_spec. unfold SFltb.
  pose proof (SFcompare_refl (Prim2SF x)) as H.
  destruct (SFcompare (Prim2SF x) (Prim2SF x)) as [[| |]|]; congruence.
Qed.

(** [round2] on values whose Python results are well known: ties go to
    the even hundredth, the binary value decides when the decimal literal
    is not exact, and the sign of a negative that rounds to zero stays. *)
Example round2_values :
  List.map PyFloat.round2 [0.0625; 0.125; 0.375; 2.675; 5.005; -0.001; 30]%float
  = [0.06; 0.12; 0.38; 2.67; 5; -0; 30]%float.
Proof. vm_compute. reflexivity. Qed.

Example round2_keeps_special_values :
  List.map PyFloat.round2 [PrimFloat.nan; PrimFloat.infinity; 1e300]%float
  = [PrimFloat.nan; PrimFloat.infinity; 1e300]%float.
Proof. vm_compute. reflexivity. Qed.

End PyFloatFacts.

(** ** Object identifiers *)

Example ObjectId_values :
  Bson.ObjectId "0000000000000000000000ff" = Some (Bson.Oid12 255%N) /\
  Bson.ObjectId "0000000000000000000000FF" = Some (Bson.Oid12 255%N) /\
  Bson.ObjectId "ff" = None /\
  Bson.ObjectId "00000000000000000000000g" = None /\
  Bson.ObjectId "00 00 00 00 00 00 00 00 " = Some Bson.ShortId /\
  Bson.ObjectId "0000000000000000000000 f" = None /\
  Bson.str 255%N = "0000000000000000000000ff".
Proof. repeat split. Qed.

(** ** The monad and the collections *)

(** A run on sample data: the outcome is computed, the world is the one
    the run defines. *)
Ltac sample_run :=
  match goal with
  | |- ?run = (?out, ?w) =>
      apply (eq_trans (surjective_pairing run));
      apply f_equal2; [vm_compute; reflexivity | reflexivity]
  end.

Ltac unfold_handler :=
  unfold bind, require_db, find_one_user, update_one_user, insert_one_user,
    insert_one_match, insert_one_bet, insert_one_wallettransaction,
    find_wallettransaction, find_match, find_bet, count_documents_match,
    with_db, now_utc, ret, raise, lift_outcome in *.

(** A string of 24 characters that spells fewer than 12 bytes selects no
    user. *)
Lemma find_one_short_id (users : list UserDoc) :
  Collection.find_one (by_object_id Bson.ShortId) users = None.
Proof. induction users as [|u users IH]; [reflexivity | exact IH]. Qed.

Section Collections.

Context {D : Type}.
Variables (p : D -> bool) (f : D -> D).

Lemma find_one_app_l (docs extra : list D) (d : D) :
  Collection.find_one p docs = Some d ->
  Collection.find_one p (docs ++ extra) = Some d.
Proof.
  unfold Collection.find_one.
  induction docs as [|x docs IH]; simpl; [discriminate|].
  destruct (p x); auto.
Qed.

Lemma find_one_app_r (docs extra : list D) :
  Collection.find_one p docs = None ->
  Collection.find_one p (docs ++ extra) = Collection.find_one p extra.
Proof.
  unfold Collection.find_one.
  induction docs as [|x docs IH]; simpl; [reflexivity|].
  destruct (p x); [discriminate | auto].
Qed.

(** [update_one] rewrites the document [find_one] returns, when the
    rewriting keeps the filter true. *)
Lemma find_one_update_one (docs : list D) (d : D) :
  (forall x, p x = true -> p (f x) = true) ->
  Collection.find_one p docs = Some d ->
  Collection.find_one p (Collection.update_one p f docs) = Some (f d).
Proof.
  intros Hf. unfold Collection.find_one.
  induction docs as [|x docs IH]; simpl; [discriminate|].
  destruct (p x) eqn:Hx; simpl.
  - intros [= ->]. now rewrite (Hf _ Hx).
  - rewrite Hx. exact IH.
Qed.

(** A filter that the rewriting does not affect sees the same first
    match, up to the rewriting, which it leaves alone when it selects
    other documents than [p]. *)
Lemma find_one_update_one_other (q : D -> bool) (docs : list D) :
  (forall x, q (f x) = q x) ->
  (forall x, q x = true -> p x = false) ->
  Collection.find_one q (Collection.update_one p f docs)
  = Collection.find_one q docs.
Proof.
  intros Hq Hpq. unfold Collection.find_one.
  induction docs as [|x docs IH]; simpl; [reflexivity|].
  destruct (p x) eqn:Hx; simpl.
  - rewrite Hq. destruct (q x) eqn:Hqx; [|reflexivity].
    rewrite (Hpq _ Hqx) in Hx. discriminate.
  - destruct (q x); [reflexivity | exact IH].
Qed.

Lemma update_one_In (docs : list D) (x : D) :
  In x (Collection.update_one p f docs) ->
  In x docs \/ exists y, In y docs /\ x = f y.
Proof.
  induction docs as [|y docs IH]; simpl; [tauto|].
  destruct (p y); simpl.
  - intros [<- | Hin]; [right; exists y; auto | auto].
  - intros [<- | Hin]; [auto|].
    destruct (IH Hin) as [H | (z & Hz & ->)]; [auto|].
    right; exists z; auto.
Qed.

End Collections.

(* ================================================================= *)
(** ** The datastore check comes first *)

(** C8.  When the datastore is unavailable ([db] is [None]), each of the
    eight [/api] handlers raises the 500 "Database not available" error
    whatever its arguments are, so before the identifier, the user, the
    selections or the balance are looked at, and leaves the world as it
    was. *)
Theorem database_unavailable_short_circuits (w : World) :
  db w = None ->
  (forall p, register_user p w = (Raise database_unavailable, w)) /\
  (forall p, login_user p w = (Raise database_unavailable, w)) /\
  (forall i, get_user i w = (Raise database_unavailable, w)) /\
  (forall p, topup_wallet p w = (Raise database_unavailable, w)) /\
  (forall i n, list_transactions i n w = (Raise database_unavailable, w)) /\
  list_matches w = (Raise database_unavailable, w) /\
  (forall i, list_bets i w = (Raise database_unavailable, w)) /\
  (forall p, place_bet p w = (Raise database_unavailable, w)).
Proof.
  intros Hdown.
  repeat split; intros;
    unfold register_user, login_user, get_user, topup_wallet,
      list_transactions, list_matches, list_bets, place_bet,
      bind, require_db;
    rewrite Hdown; reflexivity.
Qed.

Lemma database_unavailable_short_circuits_witness :
  db Sample.down_world = None /\
  place_bet (Sample.wager 10 [2; 1.5]%float) Sample.down_world
  = (Raise database_unavailable, Sample.down_world) /\
  topup_wallet (Sample.topup (-5)) Sample.down_world
  = (Raise database_unavailable, Sample.down_world).
Proof.
  pose proof (database_unavailable_short_circuits
                Sample.down_world eq_refl) as H.
  split; [reflexivity|]. split; apply H.
Defined.

(* ================================================================= *)
(** ** Placing a bet: rejection *)

Lemma total_odds_loop_rejects (selections : list BetSelection) :
  List.existsb odds_rejected selections = true ->
  forall acc, total_odds_loop selections acc = Raise invalid_odds.
Proof.
  induction selections as [|s rest IH]; simpl; [discriminate|].
  intros H acc. unfold odds_rejected in H at 1.
  destruct (PrimFloat.leb (sel_odds s) 1); [reflexivity|].
  apply IH. exact H.
Qed.

Lemma total_odds_loop_accepts (selections : list BetSelection) :
  List.existsb odds_rejected selections = false ->
  forall acc,
    total_odds_loop selections acc = Return (odds_product selections acc).
Proof.
  induction selections as [|s rest IH]; simpl; [reflexivity|].
  intros H acc. unfold odds_rejected in H at 1.
  destruct (PrimFloat.leb (sel_odds s) 1); [discriminate|].
  apply IH. exact H.
Qed.

(** Whenever [place_bet] raises, it has written nothing. *)
Lemma place_bet_raise_unchanged (p : PlaceBetRequest) (w w' : World)
  (e : HTTPException) :
  place_bet p w = (Raise e, w') -> w' = w.
Proof.
  unfold place_bet. unfold_handler. unfold stored_user.
  destruct (db w) as [d|] eqn:Hdb; [|now intros [= _ <-]].
  destruct (Bson.ObjectId (bet_user_id p)) as [q|]; [|now intros [= _ <-]].
  rewrite Hdb.
  destruct (Collection.find_one (by_object_id q) (user d)) as [u|];
    [|intros [= _ <-]; destruct w; simpl in *; congruence].
  destruct (bet_selections p) as [|s rest] eqn:Hsel;
    [intros [= _ <-]; destruct w; simpl in *; congruence|].
  simpl db.
  destruct (total_odds_loop (s :: rest) 1) as [total|e'];
    [|intros [= _ <-]; destruct w; simpl in *; congruence].
  destruct (PrimFloat.ltb (u_balance u) (bet_stake p));
    [intros [= _ <-]; destruct w; simpl in *; congruence|].
  simpl. discriminate.
Qed.

(** C2.  A [PlaceBet] request with a malformed user id (one [ObjectId]
    refuses, or one of 24 characters that spells fewer than 12 bytes), an
    absent user, no selection, a selection with odds at most 1.0, or a
    stake above the balance raises and leaves the whole world (every
    balance, the bets and the ledger) as it was; and nothing is ever
    written by a [place_bet] that raises. *)
Theorem place_bet_rejection_has_no_effect (p : PlaceBetRequest) (w : World) :
  (rejected p w -> exists e, place_bet p w = (Raise e, w)) /\
  (forall e w', place_bet p w = (Raise e, w') -> w' = w).
Proof.
  split; [|intros e w'; apply place_bet_raise_unchanged].
  intros Hrej.
  assert (exists e w', place_bet p w = (Raise e, w')) as (e & w' & Hrun).
  { unfold place_bet. unfold_handler.
    destruct (db w) as [d|] eqn:Hdb; [|eauto].
    destruct Hrej
      as [Hid | Hid | o Hid Hnone | Hsel | Hodds | o u Hid Hu Hlt];
      try rewrite Hid; eauto; try rewrite Hdb; cbn [by_object_id].
    - rewrite find_one_short_id. eauto.
    - unfold stored_user in Hnone. rewrite Hdb in Hnone. rewrite Hnone.
      eauto.
    - destruct (Bson.ObjectId (bet_user_id p)); [|eauto]. rewrite Hdb.
      destruct (Collection.find_one _ _); [|eauto]. rewrite Hsel. eauto.
    - destruct (Bson.ObjectId (bet_user_id p)); [|eauto]. rewrite Hdb.
      destruct (Collection.find_one _ _); [|eauto].
      destruct (bet_selections p) as [|s rest] eqn:Hsel; [eauto|].
      simpl db. rewrite (total_odds_loop_rejects _ Hodds). eauto.
    - unfold stored_user in Hu. rewrite Hdb in Hu. rewrite Hu.
      destruct (bet_selections p) as [|s rest] eqn:Hsel; [eauto|].
      simpl db. destruct (total_odds_loop (s :: rest) 1); [|eauto].
      rewrite Hlt. eauto. }
  exists e. rewrite Hrun. f_equal.
  exact (place_bet_raise_unchanged _ _ _ _ Hrun).
Qed.

Lemma place_bet_rejection_has_no_effect_witness :
  rejected (Sample.wager 10 [2; 0.9]%float) Sample.after_75 /\
  rejected (Sample.wager 80 [2; 1.5]%float) Sample.after_75 /\
  (exists e,
     place_bet (Sample.wager 10 [2; 0.9]%float) Sample.after_75
     = (Raise e, Sample.after_75)) /\
  (exists e,
     place_bet (Sample.wager 80 [2; 1.5]%float) Sample.after_75
     = (Raise e, Sample.after_75)).
Proof.
  assert (rejected (Sample.wager 10 [2; 0.9]%float) Sample.after_75) as H1
    by (apply rejected_odds; reflexivity).
  assert (rejected (Sample.wager 80 [2; 1.5]%float) Sample.after_75) as H2
    by (eapply (rejected_balance _ _ 0%N); reflexivity).
  repeat split; try assumption.
  - exact (proj1 (place_bet_rejection_has_no_effect _ _) H1).
  - exact (proj1 (place_bet_rejection_has_no_effect _ _) H2).
Defined.

(* ================================================================= *)
(** ** Placing a bet: the odds loop *)

(** The loop run on selections that are all accepted, then on one that is
    rejected: it raises there, whatever follows. *)
Lemma total_odds_loop_stops (accepted : list BetSelection)
  (bad : BetSelection) (rest : list BetSelection) (acc : float) :
  List.existsb odds_rejected accepted = false ->
  odds_rejected bad = true ->
  total_odds_loop (accepted ++ bad :: rest) acc = Raise invalid_odds.
Proof.
  revert acc. induction accepted as [|s more IH]; simpl; intros acc Hok Hbad.
  - unfold odds_rejected in Hbad. now rewrite Hbad.
  - unfold odds_rejected in Hok at 1.
    destruct (PrimFloat.leb (sel_odds s) 1); [discriminate|].
    now apply IH.
Qed.

(** C4.  Once the datastore, the user id and the user are in order and
    there is a selection, [place_bet] raises the 400 "Invalid odds in
    selection" error if some selection has odds at most 1.0, writing
    nothing.  The check sits in the loop that multiplies the odds: run from
    the left, the loop multiplies the accumulator by the odds of each
    accepted selection and raises at the first rejected one, so that its
    result does not depend on the selections after it. *)
Theorem place_bet_invalid_odds :
  (forall p w o u,
      Bson.ObjectId (bet_user_id p) = Some (Bson.Oid12 o) ->
      stored_user o w = Some u ->
      List.existsb odds_rejected (bet_selections p) = true ->
      place_bet p w = (Raise invalid_odds, w)) /\
  (forall accepted acc,
      List.existsb odds_rejected accepted = false ->
      total_odds_loop accepted acc
      = Return (List.fold_left PrimFloat.mul
                  (List.map sel_odds accepted) acc)) /\
  (forall accepted bad rest rest' acc,
      List.existsb odds_rejected accepted = false ->
      odds_rejected bad = true ->
      total_odds_loop (accepted ++ bad :: rest) acc = Raise invalid_odds /\
      total_odds_loop (accepted ++ bad :: rest) acc
      = total_odds_loop (accepted ++ bad :: rest') acc).
Proof.
  split; [|split].
  - intros p w o u Hid Hu Hodds.
    unfold place_bet. unfold_handler. unfold stored_user in Hu.
    destruct (db w) as [d|] eqn:Hdb; [|discriminate].
    rewrite Hid, Hdb. cbn [by_object_id]. rewrite Hu.
    destruct (bet_selections p) as [|s rest] eqn:Hsel; [discriminate|].
    simpl db. rewrite (total_odds_loop_rejects _ Hodds).
    destruct w; simpl in *; congruence.
  - intros accepted acc Hok. now apply total_odds_loop_accepts.
  - intros accepted bad rest rest' acc Hok Hbad.
    rewrite !total_odds_loop_stops by assumption. auto.
Qed.

Lemma place_bet_invalid_odds_witness :
  place_bet (Sample.wager 10 [2; 0.9; 1.5]%float) Sample.after_75
  = (Raise invalid_odds, Sample.after_75) /\
  total_odds_loop (List.map Sample.leg [2; 1.5]%float) 1
  = Return 3%float /\
  total_odds_loop (List.map Sample.leg [2; 1; 1.5; 0.5]%float) 1
  = total_odds_loop (List.map Sample.leg [2; 1]%float) 1.
Proof.
  destruct place_bet_invalid_odds as (Hraise & Hok & Hstop).
  split; [|split].
  - apply (Hraise (Sample.wager 10 [2; 0.9; 1.5]%float) Sample.after_75
             0%N {| u_id := 0%N; u_name := "Abebe";
                    u_phone := "+251911000001"; u_balance := 75%float;
                    u_is_active := true;
                    u_created_at := 1700000000000000%Z;
                    u_updated_at := 1700000000000000%Z |});
      reflexivity.
  - apply (Hok (List.map Sample.leg [2; 1.5]%float) 1%float). reflexivity.
  - apply (Hstop [Sample.leg 2] (Sample.leg 1)
             (List.map Sample.leg [1.5; 0.5]%float) [] 1%float);
      reflexivity.
Defined.

(* ================================================================= *)
(** ** Registration *)

Lemma find_one_by_phone_none (phone : string) (users : list UserDoc) :
  Collection.find_one (by_phone phone) users = None <->
  (forall u, In u users -> u_phone u <> phone).
Proof.
  unfold Collection.find_one, by_phone. split.
  - intros Hnone u Hin Heq.
    pose proof (List.find_none _ _ Hnone u Hin) as H. simpl in H.
    apply String.eqb_neq in H. contradiction.
  - intros Hall. induction users as [|x users IH]; simpl; [reflexivity|].
    destruct (String.eqb_spec (u_phone x) phone) as [Heq|Hne].
    + exfalso. apply (Hall x); simpl; auto.
    + apply IH. intros u Hin. apply Hall. simpl; auto.
Qed.

Lemma find_one_by_phone_some (phone : string) (users : list UserDoc) :
  (exists u, In u users /\ u_phone u = phone) ->
  exists u, Collection.find_one (by_phone phone) users = Some u.
Proof.
  intros (u & Hin & Heq).
  destruct (Collection.find_one (by_phone phone) users) as [v|] eqn:Hfind;
    [eauto|].
  apply find_one_by_phone_none with (u := u) in Hfind; [contradiction|auto].
Qed.

Lemma register_user_conflict (p : RegisterRequest) (w : World)
  (d : Database) :
  db w = Some d ->
  (exists u, In u (user d) /\ u_phone u = reg_phone p) ->
  register_user p w = (Raise phone_taken, w).
Proof.
  intros Hdb Htaken.
  destruct (find_one_by_phone_some _ _ Htaken) as (u & Hfind).
  unfold register_user. unfold_handler. rewrite Hdb. rewrite Hdb, Hfind.
  destruct w; simpl in *; subst; reflexivity.
Qed.

Lemma register_user_fresh (p : RegisterRequest) (w : World) (d : Database) :
  db w = Some d ->
  (forall u, In u (user d) -> u_phone u <> reg_phone p) ->
  register_user p w
  = (Return {| resp_user_id := Bson.str (next_oid d);
               resp_name := reg_name p; resp_phone := reg_phone p;
               resp_balance := 0%float |},
     registered_world p w d).
Proof.
  intros Hdb Hfree. apply find_one_by_phone_none in Hfree.
  unfold register_user. unfold_handler. rewrite Hdb. rewrite Hdb, Hfree.
  reflexivity.
Qed.

(** C6.  With the datastore available, [register_user] raises the 400
    "Phone already registered" error, writing nothing, when some user has
    the phone; otherwise it appends one user with that name and phone,
    balance 0 and [is_active] true, touches no other collection and returns
    the new identifier, the name, the phone and the balance 0.  Two
    registrations with one phone: the first returns, the second raises. *)
Theorem register_user_conflict_or_insert (p : RegisterRequest) (w : World)
  (d : Database) :
  db w = Some d ->
  ((exists u, In u (user d) /\ u_phone u = reg_phone p) ->
   register_user p w = (Raise phone_taken, w)) /\
  ((forall u, In u (user d) -> u_phone u <> reg_phone p) ->
   exists w' d' u',
     register_user p w
     = (Return {| resp_user_id := Bson.str (u_id u');
                  resp_name := reg_name p; resp_phone := reg_phone p;
                  resp_balance := 0%float |}, w') /\
     db w' = Some d' /\
     user d' = user d ++ [u'] /\
     u_name u' = reg_name p /\ u_phone u' = reg_phone p /\
     u_balance u' = 0%float /\ u_is_active u' = true /\
     match_ d' = match_ d /\ bet d' = bet d /\
     wallettransaction d' = wallettransaction d /\
     forall q, reg_phone q = reg_phone p ->
       register_user q w' = (Raise phone_taken, w')).
Proof.
  intros Hdb. split; [now apply register_user_conflict|].
  intros Hfree.
  exists (registered_world p w d).
  eexists. exists (new_user p w d).
  split; [now apply register_user_fresh|].
  split; [reflexivity|].
  repeat (split; [reflexivity|]).
  intros q Hq. eapply register_user_conflict; [reflexivity|].
  exists (new_user p w d). simpl. split; [|auto].
  apply in_or_app. right. simpl. auto.
Qed.

Lemma register_user_conflict_or_insert_witness :
  db Sample.fresh_world = Some empty_database /\
  exists w' u',
    register_user Sample.abebe Sample.fresh_world
    = (Return {| resp_user_id := Bson.str (u_id u');
                 resp_name := "Abebe"; resp_phone := "+251911000001";
                 resp_balance := 0%float |}, w') /\
    u_balance u' = 0%float /\ u_is_active u' = true /\
    register_user Sample.kebede_same_phone w' = (Raise phone_taken, w').
Proof.
  split; [reflexivity|].
  destruct (register_user_conflict_or_insert Sample.abebe
              Sample.fresh_world empty_database eq_refl) as [_ Hins].
  destruct Hins as (w' & d' & u' & Hrun & _ & _ & _ & _ & Hbal & Hact & _
                    & _ & _ & Hsecond).
  - intros u [].
  - exists w', u'. repeat split; try assumption.
    apply Hsecond. reflexivity.
Defined.

(* ================================================================= *)
(** ** Seeding *)

(** C7.  With the datastore available, [seed_matches] run on an empty match
    collection appends exactly three matches: the football matches Saint
    George v Buna and Fasil Kenema v Wolaita Dicha and the basketball match
    Addis Lions v Hawassa Hawks, each with status "scheduled", and touches
    no other collection; run on a match collection that is not empty it
    changes nothing.  Without a datastore it does nothing either. *)
Theorem seed_matches_only_when_empty (w : World) :
  (forall d, db w = Some d -> match_ d = [] ->
     exists w' d' m1 m2 m3,
       seed_matches w = (Return tt, w') /\ db w' = Some d' /\
       match_ d' = [m1; m2; m3] /\
       (m_sport m1 = "football" /\ m_home_team m1 = "Saint George" /\
        m_away_team m1 = "Buna" /\ m_status m1 = "scheduled") /\
       (m_sport m2 = "football" /\ m_home_team m2 = "Fasil Kenema" /\
        m_away_team m2 = "Wolaita Dicha" /\ m_status m2 = "scheduled") /\
       (m_sport m3 = "basketball" /\ m_home_team m3 = "Addis Lions" /\
        m_away_team m3 = "Hawassa Hawks" /\ m_status m3 = "scheduled") /\
       user d' = user d /\ bet d' = bet d /\
       wallettransaction d' = wallettransaction d) /\
  (forall d, db w = Some d -> match_ d <> [] ->
     seed_matches w = (Return tt, w)) /\
  (db w = None -> seed_matches w = (Return tt, w)).
Proof.
  split; [|split].
  - intros d Hdb Hempty.
    unfold seed_matches. rewrite Hdb. unfold_handler. rewrite Hdb, Hempty.
    simpl. do 5 eexists.
    split; [reflexivity|]. split; [reflexivity|]. simpl.
    rewrite Hempty. simpl.
    split; [reflexivity|]. repeat split.
  - intros d Hdb Hsome.
    unfold seed_matches. rewrite Hdb. unfold_handler. rewrite Hdb.
    destruct (match_ d) as [|m rest]; [contradiction|]. simpl.
    destruct w; simpl in *; subst; reflexivity.
  - intros Hdown. unfold seed_matches. now rewrite Hdown.
Qed.

Lemma seed_matches_only_when_empty_witness :
  (exists w' d',
     seed_matches Sample.fresh_world = (Return tt, w') /\
     db w' = Some d' /\ List.length (match_ d') = 3%nat /\
     seed_matches w' = (Return tt, w')) /\
  seed_matches Sample.down_world = (Return tt, Sample.down_world).
Proof.
  destruct (seed_matches_only_when_empty Sample.fresh_world)
    as (Hempty & _ & _).
  destruct (Hempty empty_database eq_refl eq_refl)
    as (w' & d' & m1 & m2 & m3 & Hrun & Hdb & Hthree & _).
  split.
  - exists w', d'. repeat split; try assumption.
    + now rewrite Hthree.
    + destruct (seed_matches_only_when_empty w') as (_ & Hfull & _).
      apply (Hfull d' Hdb). rewrite Hthree. discriminate.
  - destruct (seed_matches_only_when_empty Sample.down_world)
      as (_ & _ & Hdown).
    apply Hdown. reflexivity.
Defined.

(* ================================================================= *)
(** ** Top-up *)

(** The world [topup_wallet] leaves on success. *)
Lemma topup_wallet_found (p : TopupRequest) (w : World) (d : Database)
  (o : Bson.oid) (u : UserDoc) :
  db w = Some d ->
  Bson.ObjectId (topup_user_id p) = Some (Bson.Oid12 o) ->
  Collection.find_one (by_id o) (user d) = Some u ->
  let new_balance := PrimFloat.add (u_balance u) (topup_amount p) in
  topup_wallet p w
  = (Return {| topup_balance := new_balance |},
     {| db := Some
          {| user := Collection.update_one (by_id o)
                       (set_balance new_balance
                          (bson_datetime (clock w 0%nat))) (user d);
             match_ := match_ d; bet := bet d;
             wallettransaction :=
               wallettransaction d ++
               [{| t_id := next_oid d; t_user_id := topup_user_id p;
                   t_type := "topup"; t_amount := topup_amount p;
                   t_balance_after := new_balance; t_reference := None;
                   t_created_at := bson_datetime (clock w 1%nat);
                   t_updated_at := bson_datetime (clock w 2%nat) |}];
             next_oid := N.succ (next_oid d) |};
        clock := later 3 (clock w) |}).
Proof.
  intros Hdb Hid Hu. unfold topup_wallet. unfold_handler.
  rewrite Hdb, Hid. cbn [by_object_id]. rewrite Hdb, Hu. reflexivity.
Qed.

(** C5.  A [TopUp] of a positive amount for an existing user whose balance
    is [b] returns the balance [b + amount], the float sum with no
    rounding, stores it as the user's balance and appends one ledger row of
    type "topup" with that amount, [balance_after = b + amount] and no
    reference; bets and matches are untouched.  [TopUp 50] then [TopUp 25]
    on a newly registered user give the balance 75 and two rows whose
    [balance_after] are 50 and 75. *)
Theorem topup_wallet_adds_amount :
  (forall p w d o u,
      db w = Some d ->
      Bson.ObjectId (topup_user_id p) = Some (Bson.Oid12 o) ->
      Collection.find_one (by_id o) (user d) = Some u ->
      TopupRequest_valid p = true ->
      let new_balance := PrimFloat.add (u_balance u) (topup_amount p) in
      exists w' d' u' tx,
        topup_wallet p w = (Return {| topup_balance := new_balance |}, w') /\
        db w' = Some d' /\
        Collection.find_one (by_id o) (user d') = Some u' /\
        u_balance u' = new_balance /\
        user d' = Collection.update_one (by_id o)
                    (set_balance new_balance
                       (bson_datetime (clock w 0%nat))) (user d) /\
        wallettransaction d' = wallettransaction d ++ [tx] /\
        t_user_id tx = topup_user_id p /\ t_type tx = "topup" /\
        t_amount tx = topup_amount p /\ t_balance_after tx = new_balance /\
        t_reference tx = None /\
        bet d' = bet d /\ match_ d' = match_ d) /\
  (fst (topup_wallet (Sample.topup 50) Sample.registered)
   = Return {| topup_balance := 50 |} /\
   fst (topup_wallet (Sample.topup 25) Sample.after_50)
   = Return {| topup_balance := 75 |} /\
   option_map u_balance (stored_user 0%N Sample.after_75) = Some 75%float /\
   option_map (fun d => List.map t_balance_after (wallettransaction d))
     (db Sample.after_75) = Some [50; 75]%float /\
   option_map (fun d => List.map t_amount (wallettransaction d))
     (db Sample.after_75) = Some [50; 25]%float).
Proof.
  split.
  - intros p w d o u Hdb Hid Hu _ new_balance.
    rewrite (topup_wallet_found p w d o u Hdb Hid Hu).
    do 4 eexists. split; [reflexivity|]. split; [reflexivity|]. simpl.
    split; [apply find_one_update_one; [|exact Hu]; auto|].
    repeat (split; [reflexivity|]). reflexivity.
  - repeat split; vm_compute; reflexivity.
Qed.

Lemma topup_wallet_adds_amount_witness :
  TopupRequest_valid (Sample.topup 25) = true /\
  exists w',
    topup_wallet (Sample.topup 25) Sample.after_50
    = (Return {| topup_balance := 75 |}, w').
Proof.
  split; [reflexivity|].
  destruct (proj1 topup_wallet_adds_amount (Sample.topup 25) Sample.after_50
              _ 0%N _ eq_refl eq_refl eq_refl eq_refl)
    as (w' & _ & _ & _ & Hrun & _).
  exists w'. exact Hrun.
Defined.

(* ================================================================= *)
(** ** Placing a bet: acceptance *)

(** [place_bet] returns exactly when the datastore is there, the user is
    found, there is a selection, no selection is rejected and the balance is
    not below the stake. *)
Lemma place_bet_accepted (p : PlaceBetRequest) (w : World) (d : Database)
  (o : Bson.oid) (u : UserDoc) :
  db w = Some d ->
  Bson.ObjectId (bet_user_id p) = Some (Bson.Oid12 o) ->
  Collection.find_one (by_id o) (user d) = Some u ->
  bet_selections p <> [] ->
  List.existsb odds_rejected (bet_selections p) = false ->
  PrimFloat.ltb (u_balance u) (bet_stake p) = false ->
  place_bet p w = (Return (placed_response p d u), placed_world p w d o u).
Proof.
  intros Hdb Hid Hu Hsel Hodds Hbal. unfold place_bet. unfold_handler.
  rewrite Hdb, Hid. cbn [by_object_id]. rewrite Hdb, Hu.
  destruct (bet_selections p) as [|s rest] eqn:Hs; [contradiction|].
  simpl db. rewrite (total_odds_loop_accepts _ Hodds), Hbal.
  unfold placed_response, placed_world, placed_bet, placed_row,
    potential_return_of, balance_after_bet. rewrite Hs. reflexivity.
Qed.

Lemma place_bet_return_inv (p : PlaceBetRequest) (w w' : World)
  (resp : PlaceBetResponse) :
  place_bet p w = (Return resp, w') ->
  exists d o u,
    db w = Some d /\
    Bson.ObjectId (bet_user_id p) = Some (Bson.Oid12 o) /\
    Collection.find_one (by_id o) (user d) = Some u /\
    bet_selections p <> [] /\
    List.existsb odds_rejected (bet_selections p) = false /\
    PrimFloat.ltb (u_balance u) (bet_stake p) = false /\
    resp = placed_response p d u /\ w' = placed_world p w d o u.
Proof.
  intros Hrun.
  destruct (db w) as [d|] eqn:Hdb.
  2:{ unfold place_bet, bind, require_db in Hrun. rewrite Hdb in Hrun.
      discriminate. }
  destruct (Bson.ObjectId (bet_user_id p)) as [[o|]|] eqn:Hid.
  3:{ unfold place_bet in Hrun. unfold_handler.
      rewrite Hdb, Hid in Hrun. discriminate. }
  2:{ unfold place_bet in Hrun. unfold_handler.
      rewrite Hdb, Hid in Hrun.
      rewrite Hdb, find_one_short_id in Hrun. discriminate. }
  destruct (Collection.find_one (by_id o) (user d)) as [u|] eqn:Hu.
  2:{ unfold place_bet in Hrun. unfold_handler.
      rewrite Hdb, Hid in Hrun. cbn [by_object_id] in Hrun.
      rewrite Hdb, Hu in Hrun. discriminate. }
  destruct (bet_selections p) as [|s rest] eqn:Hs.
  { unfold place_bet in Hrun. unfold_handler.
    rewrite Hdb, Hid in Hrun. cbn [by_object_id] in Hrun.
    rewrite Hdb, Hu, Hs in Hrun. discriminate. }
  destruct (List.existsb odds_rejected (s :: rest)) eqn:Hodds.
  { unfold place_bet in Hrun. unfold_handler.
    rewrite Hdb, Hid in Hrun. cbn [by_object_id] in Hrun.
    rewrite Hdb, Hu, Hs in Hrun. simpl db in Hrun.
    rewrite (total_odds_loop_rejects _ Hodds) in Hrun. discriminate. }
  destruct (PrimFloat.ltb (u_balance u) (bet_stake p)) eqn:Hbal.
  { unfold place_bet in Hrun. unfold_handler.
    rewrite Hdb, Hid in Hrun. cbn [by_object_id] in Hrun.
    rewrite Hdb, Hu, Hs in Hrun. simpl db in Hrun.
    rewrite (total_odds_loop_accepts _ Hodds), Hbal in Hrun. discriminate. }
  rewrite <- Hs in Hodds.
  assert (bet_selections p <> []) as Hne by (rewrite Hs; discriminate).
  rewrite (place_bet_accepted p w d o u Hdb Hid Hu Hne Hodds Hbal) in Hrun.
  pose proof (f_equal fst Hrun) as Hresp.
  pose proof (f_equal snd Hrun) as Hworld.
  cbn [fst snd] in Hresp, Hworld.
  assert (placed_response p d u = resp) as <- by congruence.
  exists d, o, u. rewrite <- Hs.
  repeat (split; [first [reflexivity | assumption]|]).
  symmetry. exact Hworld.
Qed.

(** C3.  Whenever [place_bet] returns, the [potential_return] it returns
    and stores in the new bet is [round(stake * total_odds, 2)], where
    [total_odds] is the product of the odds of the selections accumulated
    from 1.0 in their order.  With odds 2.0 and 1.5 and a stake of 10 it is
    30.0. *)
Theorem place_bet_potential_return :
  (forall p w resp w',
      place_bet p w = (Return resp, w') ->
      resp_potential_return resp
      = PyFloat.round2
          (PrimFloat.mul (bet_stake p)
             (List.fold_left PrimFloat.mul
                (List.map sel_odds (bet_selections p)) 1%float)) /\
      exists d d' b,
        db w = Some d /\ db w' = Some d' /\
        bet d' = bet d ++ [b] /\
        Bson.str (b_id b) = resp_bet_id resp /\
        b_potential_return b = resp_potential_return resp /\
        b_stake b = bet_stake p /\ b_selections b = bet_selections p /\
        b_status b = "pending") /\
  (fst (place_bet (Sample.wager 10 [2; 1.5]%float) Sample.after_75)
   = Return {| resp_bet_id := "000000000000000000000003";
               resp_potential_return := 30;
               resp_bet_balance := 65 |} /\
   option_map (fun d => List.map b_potential_return (bet d))
     (db Sample.after_wager)
   = Some [30%float]).
Proof.
  split.
  - intros p w resp w' Hrun.
    destruct (place_bet_return_inv p w w' resp Hrun)
      as (d & o & u & Hdb & _ & _ & _ & _ & _ & -> & ->).
    split; [reflexivity|].
    exists d. eexists. exists (placed_bet p w d).
    split; [exact Hdb|]. split; [reflexivity|]. repeat split.
  - split; vm_compute; reflexivity.
Qed.

Lemma sample_wager_run :
  place_bet (Sample.wager 10 [2; 1.5]%float) Sample.after_75
  = (Return {| resp_bet_id := "000000000000000000000003";
               resp_potential_return := 30;
               resp_bet_balance := 65 |},
     Sample.after_wager).
Proof. vm_compute. reflexivity. Qed.

Lemma place_bet_potential_return_witness :
  place_bet (Sample.wager 10 [2; 1.5]%float) Sample.after_75
  = (Return {| resp_bet_id := "000000000000000000000003";
               resp_potential_return := 30;
               resp_bet_balance := 65 |},
     Sample.after_wager) /\
  30%float = PyFloat.round2 (10 * (1 * 2 * 1.5))%float.
Proof.
  split; [exact sample_wager_run|].
  exact (proj1 (proj1 place_bet_potential_return _ _ _ _ sample_wager_run)).
Defined.

(* ================================================================= *)
(** ** Listing the ledger *)

Section Sorting.

Context {D : Type}.
Variable key : D -> Z.

Lemma insert_desc_perm (d : D) (sorted : list D) :
  Permutation (Collection.insert_desc key d sorted) (d :: sorted).
Proof.
  induction sorted as [|x rest IH]; simpl; [reflexivity|].
  destruct (key x <=? key d)%Z; [reflexivity|].
  rewrite IH. apply perm_swap.
Qed.

(** Sorting keeps every document, once each. *)
Lemma sort_desc_perm (docs : list D) :
  Permutation (Collection.sort_desc key docs) docs.
Proof.
  unfold Collection.sort_desc.
  induction docs as [|d rest IH]; simpl; [reflexivity|].
  rewrite insert_desc_perm. now constructor.
Qed.

End Sorting.

Lemma list_transactions_available (user_id : string) (limit : Z)
  (w : World) (d : Database) :
  db w = Some d ->
  list_transactions user_id limit w
  = (Return (Collection.limit limit
               (Collection.sort_desc t_created_at (rows_of user_id d))), w).
Proof.
  intros Hdb. unfold list_transactions. unfold_handler. rewrite Hdb.
  rewrite Hdb. destruct w; simpl in *; subst; reflexivity.
Qed.

(** C10.  With a limit of 0, [list_transactions] returns every ledger row
    stored under the given user id, each of them once, and not an empty
    list: the 0 goes to the cursor as it is, where it stands for no limit
    (the documented behaviour of the driver's [Cursor.limit]).  For the
    sample user, who has three rows, limit 0 gives three rows and limit 1
    gives one. *)
Theorem list_transactions_limit_0_is_unlimited :
  (forall user_id w d,
      db w = Some d ->
      exists items,
        list_transactions user_id 0 w = (Return items, w) /\
        Permutation items (rows_of user_id d) /\
        List.length items = List.length (rows_of user_id d)) /\
  (option_map (fun d => List.length (rows_of Sample.abebe_id d))
     (db Sample.after_wager) = Some 3%nat /\
   (exists items,
      fst (list_transactions Sample.abebe_id 0 Sample.after_wager)
      = Return items /\ List.length items = 3%nat) /\
   (exists items,
      fst (list_transactions Sample.abebe_id 1 Sample.after_wager)
      = Return items /\ List.length items = 1%nat)).
Proof.
  split.
  - intros user_id w d Hdb. eexists.
    split; [apply (list_transactions_available user_id 0 w d Hdb)|].
    simpl. split; [apply sort_desc_perm|].
    apply Permutation_length, sort_desc_perm.
  - split; [vm_compute; reflexivity|].
    split; eexists; split; vm_compute; reflexivity.
Qed.

Lemma sample_after_wager_db :
  db Sample.after_wager = Some Sample.after_wager_database.
Proof. vm_compute. reflexivity. Qed.

Lemma sample_rows_length :
  List.length (rows_of Sample.abebe_id Sample.after_wager_database) = 3%nat.
Proof. vm_compute. reflexivity. Qed.

Lemma list_transactions_limit_0_is_unlimited_witness :
  exists items,
    list_transactions Sample.abebe_id 0 Sample.after_wager
    = (Return items, Sample.after_wager) /\
    List.length items = 3%nat.
Proof.
  destruct (proj1 list_transactions_limit_0_is_unlimited
              Sample.abebe_id Sample.after_wager
              Sample.after_wager_database sample_after_wager_db)
    as (items & Hrun & _ & Hlen).
  exists items. split; [exact Hrun|].
  exact (eq_trans Hlen sample_rows_length).
Defined.

(* ================================================================= *)
(** ** Staking the whole balance *)

(** C9, on the code.  A [PlaceBet] whose stake is a finite number equal to
    the user's balance is accepted, the test being [balance < stake], and
    the balance it returns and stores is 0.  (The counterexample below is
    the stake [inf] on the balance [inf].) *)
Theorem place_bet_whole_balance (p : PlaceBetRequest) (w : World)
  (d : Database) (o : Bson.oid) (u : UserDoc) :
  db w = Some d ->
  Bson.ObjectId (bet_user_id p) = Some (Bson.Oid12 o) ->
  Collection.find_one (by_id o) (user d) = Some u ->
  bet_selections p <> [] ->
  List.existsb odds_rejected (bet_selections p) = false ->
  bet_stake p = u_balance u ->
  PyFloat.isfinite (bet_stake p) = true ->
  exists resp w' d' u',
    place_bet p w = (Return resp, w') /\
    resp_bet_balance resp = 0%float /\
    db w' = Some d' /\
    Collection.find_one (by_id o) (user d') = Some u' /\
    u_balance u' = 0%float.
Proof.
  intros Hdb Hid Hu Hsel Hodds Hall Hfin.
  assert (PrimFloat.ltb (u_balance u) (bet_stake p) = false) as Hbal
    by (rewrite Hall; apply PyFloatFacts.ltb_irrefl).
  assert (balance_after_bet p u = 0%float) as Hzero.
  { unfold balance_after_bet. rewrite <- Hall.
    rewrite (PyFloatFacts.sub_diag _ Hfin). reflexivity. }
  exists (placed_response p d u), (placed_world p w d o u).
  eexists.
  exists (set_balance (balance_after_bet p u)
            (bson_datetime (clock w 0%nat)) u).
  split; [now apply place_bet_accepted|].
  split; [exact Hzero|].
  split; [reflexivity|].
  split; [|exact Hzero].
  simpl. apply find_one_update_one; [|exact Hu]. auto.
Qed.

Lemma sample_after_75_db :
  db Sample.after_75 = Some Sample.after_75_database.
Proof. vm_compute. reflexivity. Qed.

Lemma sample_after_75_user :
  Collection.find_one (by_id 0%N) (user Sample.after_75_database)
  = Some Sample.abebe_with_75.
Proof. vm_compute. reflexivity. Qed.

Lemma place_bet_whole_balance_witness :
  bet_stake (Sample.wager 75 [2; 1.5]%float)
  = u_balance Sample.abebe_with_75 /\
  exists resp w',
    place_bet (Sample.wager 75 [2; 1.5]%float) Sample.after_75
    = (Return resp, w') /\
    resp_bet_balance resp = 0%float.
Proof.
  split; [reflexivity|].
  destruct (place_bet_whole_balance (Sample.wager 75 [2; 1.5]%float)
              Sample.after_75 Sample.after_75_database 0%N
              Sample.abebe_with_75
              sample_after_75_db eq_refl sample_after_75_user)
    as (resp & w' & _ & _ & Hrun & Hzero & _);
    [discriminate | reflexivity | reflexivity | reflexivity |].
  exists resp, w'. split; assumption.
Defined.

(** With the balance [inf], reached by a top-up of [inf], the stake [inf]
    equals the balance and is accepted, and the balance returned and
    stored is [nan], which is not 0. *)
Lemma place_bet_whole_infinite_balance :
  option_map u_balance (stored_user 0%N Sample.after_infinity)
  = Some PrimFloat.infinity /\
  bet_stake (Sample.wager PrimFloat.infinity [2]%float)
  = PrimFloat.infinity /\
  PlaceBetRequest_valid (Sample.wager PrimFloat.infinity [2]%float) = true /\
  fst (place_bet (Sample.wager PrimFloat.infinity [2]%float)
         Sample.after_infinity)
  = Return {| resp_bet_id := "000000000000000000000002";
              resp_potential_return := PrimFloat.infinity;
              resp_bet_balance := PrimFloat.nan |} /\
  option_map u_balance
    (stored_user 0%N
       (snd (place_bet (Sample.wager PrimFloat.infinity [2]%float)
               Sample.after_infinity)))
  = Some PrimFloat.nan /\
  PrimFloat.eqb PrimFloat.nan 0 = false /\
  PrimFloat.Leibniz.eqb PrimFloat.nan 0 = false.
Proof. repeat split; vm_compute; reflexivity. Qed.

(* ================================================================= *)
(** ** The ledger and the balance *)

Lemma find_one_by_id (o : Bson.oid) (users : list UserDoc) (u : UserDoc) :
  Collection.find_one (by_id o) users = Some u -> In u users /\ u_id u = o.
Proof.
  intros H. apply List.find_some in H. destruct H as [Hin Hid].
  split; [exact Hin|]. now apply N.eqb_eq.
Qed.



















Lemma sample_requests_run :
  db (run Sample.requests Sample.fresh_world)
  = Some Sample.after_wager_database.
Proof. vm_compute. reflexivity. Qed.

Lemma sample_after_wager_user :
  Collection.find_one (by_id 0%N) (user Sample.after_wager_database)
  = Some Sample.abebe_with_65.
Proof. vm_compute. reflexivity. Qed.

(** An accepted bet of the sample requests rounds nothing. *)
Lemma sample_requests_exact :
  exact_run Sample.requests Sample.fresh_world.
Proof.
  simpl. repeat split.
  intros o u response w' _ Hid Hu. vm_compute in Hid. injection Hid as <-.
  vm_compute in Hu. injection Hu as <-. vm_compute. reflexivity.
Qed.

Lemma sample_seeded_db :
  db Sample.seeded = Some Sample.seeded_database.
Proof. vm_compute. reflexivity. Qed.






(* ================================================================= *)
(** * Further properties *)

(** ** Identifiers printed and read back *)

Lemma hex_val_hex_char (d : N) :
  (d < 16)%N ->
  Bson.hex_val (Bson.hex_char d) = Some d /\
  Bson.is_space (Bson.hex_char d) = false.
Proof.
  intros Hd.
  assert (exists k, (k < 16)%nat /\ d = N.of_nat k) as (k & Hk & ->).
  { exists (N.to_nat d). split; [lia|]. now rewrite N2Nat.id. }
  do 16 (destruct k as [|k]; [split; reflexivity|]). lia.
Qed.

Lemma hex_digits_length (width : nat) (n : N) (acc : string) :
  String.length (Bson.hex_digits width n acc)
  = (width + String.length acc)%nat.
Proof.
  revert n acc. induction width as [|w IH]; intros n acc; simpl;
    [reflexivity|].
  rewrite IH. simpl. lia.
Qed.

(** Reading back [2 * k] printed digits gives [k] bytes. *)
Lemma fromhex_hex_digits (k : nat) (n a : N) (acc : string) (count : nat) :
  Bson.fromhex (Bson.hex_digits (2 * k) n acc) a count
  = Bson.fromhex acc
      (a * 256 ^ N.of_nat k + n mod 256 ^ N.of_nat k)%N (k + count)%nat.
Proof.
  revert n a acc count. induction k as [|k IH]; intros n a acc count.
  - simpl. rewrite N.mod_1_r. f_equal. lia.
  - replace (2 * S k)%nat with (S (S (2 * k))) by lia.
    cbn [Bson.hex_digits]. rewrite IH. cbn [Bson.fromhex].
    destruct (hex_val_hex_char ((n / 16) mod 16)%N) as [Htop Hspace];
      [apply N.mod_lt; lia|].
    destruct (hex_val_hex_char (n mod 16)%N) as [Hbot _];
      [apply N.mod_lt; lia|].
    rewrite Hspace, Htop, Hbot.
    replace (S k + count)%nat with (S (k + count)) by lia.
    f_equal. rewrite Nat2N.inj_succ, N.pow_succ_r'.
    rewrite (N.Div0.mod_mul_r n 256 (256 ^ N.of_nat k)).
    assert (n mod 256 = n mod 16 + 16 * ((n / 16) mod 16))%N as ->
      by exact (N.Div0.mod_mul_r n 16 16).
    assert (n / 256 = n / 16 / 16)%N as ->
      by (symmetry; exact (N.Div0.div_div n 16 16)).
    lia.
Qed.

(** [ObjectId(str(oid)) == oid] for a 12-byte identifier. *)
Lemma ObjectId_str (o : Bson.oid) :
  (o < 16 ^ 24)%N -> Bson.ObjectId (Bson.str o) = Some (Bson.Oid12 o).
Proof.
  intros Ho. unfold Bson.ObjectId, Bson.str.
  rewrite hex_digits_length. cbn [Nat.add String.length Nat.eqb].
  change 24%nat with (2 * 12)%nat. rewrite fromhex_hex_digits.
  cbn [Bson.fromhex Nat.add Nat.eqb].
  rewrite N.mod_small by exact Ho. reflexivity.
Qed.

(** ** Reading a user *)

Lemma login_user_available (p : LoginRequest) (w : World) (d : Database) :
  db w = Some d ->
  login_user p w
  = (match Collection.find_one (by_phone (login_phone p)) (user d) with
     | Some u => Return (user_response u)
     | None => Raise user_not_found
     end, w).
Proof.
  intros Hdb. unfold login_user. unfold_handler. rewrite Hdb. rewrite Hdb.
  destruct (Collection.find_one _ _); destruct w; simpl in *; subst;
    reflexivity.
Qed.

Lemma get_user_available (i : string) (w : World) (d : Database) :
  db w = Some d ->
  get_user i w
  = (match Bson.ObjectId i with
     | None => Raise invalid_user_id
     | Some q =>
         match Collection.find_one (by_object_id q) (user d) with
         | Some u => Return (user_response u)
         | None => Raise user_not_found
         end
     end, w).
Proof.
  intros Hdb. unfold get_user. unfold_handler. rewrite Hdb.
  destruct (Bson.ObjectId i) as [q|]; [|reflexivity]. rewrite Hdb.
  destruct (Collection.find_one _ _); destruct w; simpl in *; subst;
    reflexivity.
Qed.

Lemma find_one_by_phone_in (phone : string) (users : list UserDoc)
  (u : UserDoc) :
  Collection.find_one (by_phone phone) users = Some u ->
  In u users /\ u_phone u = phone.
Proof.
  intros H. apply List.find_some in H. destruct H as [Hin Hp].
  split; [exact Hin|]. now apply String.eqb_eq.
Qed.

Lemma find_one_by_id_none (o : Bson.oid) (users : list UserDoc) :
  (forall u, In u users -> u_id u <> o) ->
  Collection.find_one (by_id o) users = None.
Proof.
  intros Hall. unfold Collection.find_one.
  destruct (List.find (by_id o) users) as [u|] eqn:Hfind; [|reflexivity].
  apply List.find_some in Hfind. destruct Hfind as [Hin Hid].
  apply N.eqb_eq in Hid. now destruct (Hall u Hin).
Qed.

(** X1.  With the datastore available, [login_user] raises 404 "User not
    found" when no stored user has the phone, and otherwise returns the
    identifier, name, phone and balance of a stored user with that phone,
    the one registered first; in both cases it writes nothing. *)
Theorem login_user_finds_by_phone (p : LoginRequest) (w : World)
  (d : Database) :
  db w = Some d ->
  ((forall u, In u (user d) -> u_phone u <> login_phone p) ->
   login_user p w = (Raise user_not_found, w)) /\
  ((exists u, In u (user d) /\ u_phone u = login_phone p) ->
   exists u,
     login_user p w = (Return (user_response u), w) /\
     In u (user d) /\ u_phone u = login_phone p /\
     resp_balance (user_response u) = u_balance u /\
     Collection.find_one (by_phone (login_phone p)) (user d) = Some u).
Proof.
  intros Hdb. rewrite (login_user_available p w d Hdb). split.
  - intros Hnone. apply find_one_by_phone_none in Hnone. now rewrite Hnone.
  - intros Hsome.
    destruct (find_one_by_phone_some _ _ Hsome) as (u & Hfind).
    destruct (find_one_by_phone_in _ _ _ Hfind) as [Hin Hp].
    exists u. rewrite Hfind. auto.
Qed.

Lemma login_user_finds_by_phone_witness :
  exists u,
    login_user {| login_phone := "+251911000001" |} Sample.after_75
    = (Return (user_response u), Sample.after_75) /\
    u_balance u = 75%float.
Proof.
  destruct (proj2 (login_user_finds_by_phone
                     {| login_phone := "+251911000001" |} Sample.after_75
                     Sample.after_75_database sample_after_75_db))
    as (u & Hrun & _ & _ & _ & Hfind).
  - exists Sample.abebe_with_75. split; [|reflexivity].
    vm_compute. auto.
  - exists u. split; [exact Hrun|].
    assert (Some u = Some Sample.abebe_with_75) as [= ->]
      by (rewrite <- Hfind; vm_compute; reflexivity).
    reflexivity.
Defined.

(** The constructor refuses every string that has not 24 characters. *)
Lemma ObjectId_length (s : string) :
  String.length s <> 24%nat -> Bson.ObjectId s = None.
Proof.
  intros Hlen. unfold Bson.ObjectId.
  destruct (Nat.eqb_spec (String.length s) 24); [contradiction|reflexivity].
Qed.

(** X2.  With the datastore available, [get_user] raises 400 "Invalid user
    id" on a string [ObjectId] refuses, as it does every string that has
    not 24 characters; it raises 404 "User not found" on a string of 24
    characters that spells fewer than 12 bytes, which [ObjectId] accepts,
    and when no stored user has the identifier; otherwise it returns the
    printed identifier, name, phone and balance of the stored user.  It
    writes nothing. *)
Theorem get_user_by_identifier (i : string) (w : World) (d : Database) :
  db w = Some d ->
  (Bson.ObjectId i = None -> get_user i w = (Raise invalid_user_id, w)) /\
  (String.length i <> 24%nat ->
   get_user i w = (Raise invalid_user_id, w)) /\
  (Bson.ObjectId i = Some Bson.ShortId ->
   get_user i w = (Raise user_not_found, w)) /\
  (forall o, Bson.ObjectId i = Some (Bson.Oid12 o) ->
     (forall u, In u (user d) -> u_id u <> o) ->
     get_user i w = (Raise user_not_found, w)) /\
  (forall o u, Bson.ObjectId i = Some (Bson.Oid12 o) ->
     Collection.find_one (by_id o) (user d) = Some u ->
     get_user i w
     = (Return {| resp_user_id := Bson.str o; resp_name := u_name u;
                  resp_phone := u_phone u; resp_balance := u_balance u |},
        w)).
Proof.
  intros Hdb. rewrite (get_user_available i w d Hdb).
  split; [|split; [|split; [|split]]].
  - intros ->. reflexivity.
  - intros Hlen. now rewrite (ObjectId_length i Hlen).
  - intros ->. now rewrite find_one_short_id.
  - intros o -> Hnone. cbn [by_object_id].
    now rewrite (find_one_by_id_none o _ Hnone).
  - intros o u -> Hu. cbn [by_object_id]. rewrite Hu.
    destruct (find_one_by_id o _ u Hu) as [_ <-]. reflexivity.
Qed.

Lemma get_user_by_identifier_witness :
  get_user "not-an-object-id" Sample.after_75
  = (Raise invalid_user_id, Sample.after_75) /\
  get_user "00000000000000000000000g" Sample.after_75
  = (Raise invalid_user_id, Sample.after_75) /\
  get_user "00 00 00 00 00 00 00 00 " Sample.after_75
  = (Raise user_not_found, Sample.after_75) /\
  get_user "0000000000000000000000aa" Sample.after_75
  = (Raise user_not_found, Sample.after_75) /\
  get_user Sample.abebe_id Sample.after_75
  = (Return {| resp_user_id := Sample.abebe_id; resp_name := "Abebe";
               resp_phone := "+251911000001"; resp_balance := 75 |},
     Sample.after_75).
Proof.
  split; [|split; [|split; [|split]]].
  - destruct (get_user_by_identifier "not-an-object-id" Sample.after_75
                Sample.after_75_database sample_after_75_db)
      as (_ & Hlen & _).
    apply Hlen. discriminate.
  - destruct (get_user_by_identifier "00000000000000000000000g"
                Sample.after_75 Sample.after_75_database sample_after_75_db)
      as (Hbad & _).
    apply Hbad. reflexivity.
  - destruct (get_user_by_identifier "00 00 00 00 00 00 00 00 "
                Sample.after_75 Sample.after_75_database sample_after_75_db)
      as (_ & _ & Hshort & _).
    apply Hshort. reflexivity.
  - destruct (get_user_by_identifier "0000000000000000000000aa"
                Sample.after_75 Sample.after_75_database sample_after_75_db)
      as (_ & _ & _ & Habsent & _).
    apply (Habsent 170%N eq_refl).
    intros u [<- | []]. discriminate.
  - destruct (get_user_by_identifier Sample.abebe_id Sample.after_75
                Sample.after_75_database sample_after_75_db)
      as (_ & _ & _ & _ & Hfound).
    exact (Hfound 0%N Sample.abebe_with_75 eq_refl sample_after_75_user).
Defined.

(** ** Registration, then reading the user back *)

Lemma find_one_by_phone_new (p : RegisterRequest) (w : World)
  (d : Database) :
  Collection.find_one (by_phone (reg_phone p)) (user d) = None ->
  Collection.find_one (by_phone (reg_phone p)) (user d ++ [new_user p w d])
  = Some (new_user p w d).
Proof.
  intros Hfree. rewrite (find_one_app_r _ _ _ Hfree). simpl.
  unfold by_phone. simpl. now rewrite String.eqb_refl.
Qed.

Lemma find_one_by_id_new (p : RegisterRequest) (w : World) (d : Database) :
  ids_assigned d ->
  Collection.find_one (by_id (next_oid d)) (user d ++ [new_user p w d])
  = Some (new_user p w d).
Proof.
  intros Hids. rewrite find_one_app_r.
  - simpl. unfold by_id. simpl. now rewrite N.eqb_refl.
  - apply find_one_by_id_none. intros u Hin. specialize (Hids u Hin). lia.
Qed.

(** X3.  After a registration that returns, both [login_user] with the
    phone and [get_user] with the [user_id] that was returned give back the
    very response of the registration (the new identifier, the name, the
    phone and the balance 0.0), when the identifiers already stored are
    below the next one and identifiers fit 12 bytes. *)
Theorem register_then_read_back (p : RegisterRequest) (w : World)
  (d : Database) :
  db w = Some d ->
  (forall u, In u (user d) -> u_phone u <> reg_phone p) ->
  ids_assigned d ->
  (next_oid d < 16 ^ 24)%N ->
  exists resp w',
    register_user p w = (Return resp, w') /\
    resp_balance resp = 0%float /\
    login_user {| login_phone := reg_phone p |} w' = (Return resp, w') /\
    get_user (resp_user_id resp) w' = (Return resp, w').
Proof.
  intros Hdb Hfree Hids Hfit.
  rewrite (register_user_fresh p w d Hdb Hfree).
  apply find_one_by_phone_none in Hfree.
  do 2 eexists. split; [reflexivity|]. split; [reflexivity|]. split.
  - rewrite (login_user_available _ (registered_world p w d) _ eq_refl).
    cbn [login_phone user].
    now rewrite (find_one_by_phone_new p w d Hfree).
  - rewrite (get_user_available _ (registered_world p w d) _ eq_refl).
    cbn [resp_user_id user].
    rewrite (ObjectId_str _ Hfit). cbn [by_object_id].
    now rewrite (find_one_by_id_new p w d Hids).
Qed.

Lemma register_then_read_back_witness :
  exists resp w',
    register_user Sample.abebe Sample.fresh_world = (Return resp, w') /\
    get_user (resp_user_id resp) w' = (Return resp, w').
Proof.
  destruct (register_then_read_back Sample.abebe Sample.fresh_world
              empty_database eq_refl)
    as (resp & w' & Hrun & _ & _ & Hget).
  - intros u [].
  - intros u [].
  - reflexivity.
  - exists resp, w'. split; assumption.
Defined.

(** ** Top-up: failures *)

Lemma topup_wallet_cases (p : TopupRequest) (w : World) :
  topup_wallet p w
  = match db w with
    | None => (Raise database_unavailable, w)
    | Some d =>
        match Bson.ObjectId (topup_user_id p) with
        | None => (Raise invalid_user_id, w)
        | Some Bson.ShortId => (Raise user_not_found, w)
        | Some (Bson.Oid12 o) =>
            match Collection.find_one (by_id o) (user d) with
            | None => (Raise user_not_found, w)
            | Some u =>
                (Return {| topup_balance :=
                             PrimFloat.add (u_balance u) (topup_amount p) |},
                 topped_world p w d o u)
            end
        end
    end.
Proof.
  destruct (db w) as [d|] eqn:Hdb.
  2:{ unfold topup_wallet, bind, require_db. now rewrite Hdb. }
  destruct (Bson.ObjectId (topup_user_id p)) as [[o|]|] eqn:Hid.
  3:{ unfold topup_wallet. unfold_handler. now rewrite Hdb, Hid. }
  2:{ unfold topup_wallet. unfold_handler. rewrite Hdb, Hid.
      rewrite Hdb, find_one_short_id.
      destruct w; simpl in *; subst; reflexivity. }
  destruct (Collection.find_one (by_id o) (user d)) as [u|] eqn:Hu.
  - now rewrite (topup_wallet_found p w d o u Hdb Hid Hu).
  - unfold topup_wallet. unfold_handler. rewrite Hdb, Hid.
    cbn [by_object_id]. rewrite Hdb, Hu.
    destruct w; simpl in *; subst; reflexivity.
Qed.

(** X4.  [topup_wallet] fails in three ways only, checked in this order:
    500 when there is no datastore; 400 "Invalid user id" when [ObjectId]
    refuses the user id, as it does every string that has not 24
    characters; 404 "User not found" when the user id has 24 characters
    that spell fewer than 12 bytes, which [ObjectId] accepts, and when no
    user has the identifier.  A top-up that fails writes nothing.  It
    never fails on an existing user. *)
Theorem topup_wallet_failures (p : TopupRequest) (w : World) :
  (forall d, db w = Some d ->
     Bson.ObjectId (topup_user_id p) = None ->
     topup_wallet p w = (Raise invalid_user_id, w)) /\
  (forall d, db w = Some d ->
     String.length (topup_user_id p) <> 24%nat ->
     topup_wallet p w = (Raise invalid_user_id, w)) /\
  (forall d, db w = Some d ->
     Bson.ObjectId (topup_user_id p) = Some Bson.ShortId ->
     topup_wallet p w = (Raise user_not_found, w)) /\
  (forall o, Bson.ObjectId (topup_user_id p) = Some (Bson.Oid12 o) ->
     db w <> None -> stored_user o w = None ->
     topup_wallet p w = (Raise user_not_found, w)) /\
  (forall e w', topup_wallet p w = (Raise e, w') ->
     w' = w /\
     (e = database_unavailable \/ e = invalid_user_id \/
      e = user_not_found)) /\
  (forall o u, Bson.ObjectId (topup_user_id p) = Some (Bson.Oid12 o) ->
     stored_user o w = Some u ->
     exists resp w', topup_wallet p w = (Return resp, w')).
Proof.
  rewrite (topup_wallet_cases p w). unfold stored_user.
  split; [|split; [|split; [|split; [|split]]]].
  - intros d -> ->. reflexivity.
  - intros d -> Hlen. now rewrite (ObjectId_length _ Hlen).
  - intros d -> ->. reflexivity.
  - intros o -> Hup Hnone.
    destruct (db w) as [d|]; [|congruence]. now rewrite Hnone.
  - intros e w'.
    destruct (db w) as [d|]; [|intros [= <- <-]; auto].
    destruct (Bson.ObjectId (topup_user_id p)) as [[o|]|];
      [|intros [= <- <-]; auto|intros [= <- <-]; auto].
    destruct (Collection.find_one (by_id o) (user d)) as [u|];
      [discriminate | intros [= <- <-]; auto].
  - intros o u -> Hu.
    destruct (db w) as [d|]; [|discriminate]. rewrite Hu. eauto.
Qed.

Lemma topup_wallet_failures_witness :
  topup_wallet {| topup_user_id := "abebe"; topup_amount := 50 |}
    Sample.registered
  = (Raise invalid_user_id, Sample.registered) /\
  topup_wallet {| topup_user_id := "00 00 00 00 00 00 00 00 ";
                  topup_amount := 50 |} Sample.registered
  = (Raise user_not_found, Sample.registered) /\
  topup_wallet {| topup_user_id := "0000000000000000000000aa";
                  topup_amount := 50 |} Sample.registered
  = (Raise user_not_found, Sample.registered).
Proof.
  split; [|split].
  - destruct (topup_wallet_failures
                {| topup_user_id := "abebe"; topup_amount := 50 |}
                Sample.registered) as (_ & Hlen & _).
    eapply Hlen; [reflexivity | discriminate].
  - destruct (topup_wallet_failures
                {| topup_user_id := "00 00 00 00 00 00 00 00 ";
                   topup_amount := 50 |} Sample.registered)
      as (_ & _ & Hshort & _).
    eapply Hshort; reflexivity.
  - destruct (topup_wallet_failures
                {| topup_user_id := "0000000000000000000000aa";
                   topup_amount := 50 |} Sample.registered)
      as (_ & _ & _ & Habsent & _).
    apply (Habsent 170%N); [reflexivity | discriminate | reflexivity].
Defined.

(** ** Placing a bet: every outcome *)

Lemma place_bet_cases (p : PlaceBetRequest) (w : World) :
  place_bet p w
  = match db w with
    | None => (Raise database_unavailable, w)
    | Some d =>
        match Bson.ObjectId (bet_user_id p) with
        | None => (Raise invalid_user_id, w)
        | Some Bson.ShortId => (Raise user_not_found, w)
        | Some (Bson.Oid12 o) =>
            match Collection.find_one (by_id o) (user d) with
            | None => (Raise user_not_found, w)
            | Some u =>
                match bet_selections p with
                | [] => (Raise no_selections, w)
                | _ :: _ =>
                    if List.existsb odds_rejected (bet_selections p)
                    then (Raise invalid_odds, w)
                    else if PrimFloat.ltb (u_balance u) (bet_stake p)
                    then (Raise insufficient_balance, w)
                    else (Return (placed_response p d u),
                          placed_world p w d o u)
                end
            end
        end
    end.
Proof.
  destruct (db w) as [d|] eqn:Hdb.
  2:{ unfold place_bet, bind, require_db. now rewrite Hdb. }
  destruct (Bson.ObjectId (bet_user_id p)) as [[o|]|] eqn:Hid.
  3:{ unfold place_bet. unfold_handler. now rewrite Hdb, Hid. }
  2:{ unfold place_bet. unfold_handler. rewrite Hdb, Hid.
      rewrite Hdb, find_one_short_id.
      destruct w; simpl in *; subst; reflexivity. }
  destruct (Collection.find_one (by_id o) (user d)) as [u|] eqn:Hu.
  2:{ unfold place_bet. unfold_handler. rewrite Hdb, Hid.
      cbn [by_object_id]. rewrite Hdb, Hu.
      destruct w; simpl in *; subst; reflexivity. }
  destruct (bet_selections p) as [|s rest] eqn:Hs.
  { unfold place_bet. unfold_handler. rewrite Hdb, Hid.
    cbn [by_object_id].
    rewrite Hdb, Hu, Hs. destruct w; simpl in *; subst; reflexivity. }
  destruct (List.existsb odds_rejected (s :: rest)) eqn:Hodds.
  { unfold place_bet. unfold_handler. rewrite Hdb, Hid.
    cbn [by_object_id].
    rewrite Hdb, Hu, Hs. simpl db.
    rewrite (total_odds_loop_rejects _ Hodds).
    destruct w; simpl in *; subst; reflexivity. }
  destruct (PrimFloat.ltb (u_balance u) (bet_stake p)) eqn:Hbal.
  { unfold place_bet. unfold_handler. rewrite Hdb, Hid.
    cbn [by_object_id].
    rewrite Hdb, Hu, Hs. simpl db.
    rewrite (total_odds_loop_accepts _ Hodds), Hbal.
    destruct w; simpl in *; subst; reflexivity. }
  rewrite <- Hs in Hodds.
  apply place_bet_accepted; auto. rewrite Hs. discriminate.
Qed.

(** X5.  With the datastore available, [place_bet] reports the first check
    that fails, in this order: 400 "Invalid user id" when [ObjectId]
    refuses the user id, as it does every string that has not 24
    characters; 404 "User not found" when the user id has 24 characters
    that spell fewer than 12 bytes, which [ObjectId] accepts, and when no
    user has the identifier; 400 "No selections provided"; 400 "Invalid
    odds in selection"; and last 400 "Insufficient balance".  So a request
    with rejected odds and too small a balance is answered "Invalid odds in
    selection", and one with no selection for an unknown user "User not
    found".  No other exception is raised, and each leaves the world as it
    was. *)
Theorem place_bet_first_failing_check (p : PlaceBetRequest) (w : World)
  (d : Database) :
  db w = Some d ->
  (Bson.ObjectId (bet_user_id p) = None ->
   place_bet p w = (Raise invalid_user_id, w)) /\
  (String.length (bet_user_id p) <> 24%nat ->
   place_bet p w = (Raise invalid_user_id, w)) /\
  (Bson.ObjectId (bet_user_id p) = Some Bson.ShortId ->
   place_bet p w = (Raise user_not_found, w)) /\
  (forall o, Bson.ObjectId (bet_user_id p) = Some (Bson.Oid12 o) ->
     Collection.find_one (by_id o) (user d) = None ->
     place_bet p w = (Raise user_not_found, w)) /\
  (forall o u, Bson.ObjectId (bet_user_id p) = Some (Bson.Oid12 o) ->
     Collection.find_one (by_id o) (user d) = Some u ->
     (bet_selections p = [] ->
      place_bet p w = (Raise no_selections, w)) /\
     (List.existsb odds_rejected (bet_selections p) = true ->
      place_bet p w = (Raise invalid_odds, w)) /\
     (bet_selections p <> [] ->
      List.existsb odds_rejected (bet_selections p) = false ->
      PrimFloat.ltb (u_balance u) (bet_stake p) = true ->
      place_bet p w = (Raise insufficient_balance, w))) /\
  (forall e w', place_bet p w = (Raise e, w') ->
     w' = w /\
     (e = invalid_user_id \/ e = user_not_found \/ e = no_selections \/
      e = invalid_odds \/ e = insufficient_balance)).
Proof.
  intros Hdb. rewrite (place_bet_cases p w), Hdb.
  split; [|split; [|split; [|split; [|split]]]].
  - intros ->. reflexivity.
  - intros Hlen. now rewrite (ObjectId_length _ Hlen).
  - intros ->. reflexivity.
  - intros o -> ->. reflexivity.
  - intros o u -> ->. split; [|split].
    + intros ->. reflexivity.
    + intros Hodds. rewrite Hodds.
      destruct (bet_selections p); [discriminate | reflexivity].
    + intros Hsel -> ->.
      destruct (bet_selections p); [contradiction | reflexivity].
  - intros e w'.
    destruct (Bson.ObjectId (bet_user_id p)) as [[o|]|];
      [|intros [= <- <-]; auto|intros [= <- <-]; auto].
    destruct (Collection.find_one (by_id o) (user d)) as [u|];
      [|intros [= <- <-]; auto].
    destruct (bet_selections p) as [|s rest];
      [intros [= <- <-]; split; auto 6|].
    destruct (List.existsb odds_rejected (s :: rest));
      [intros [= <- <-]; split; auto 6|].
    destruct (PrimFloat.ltb (u_balance u) (bet_stake p));
      [intros [= <- <-]; split; auto 6 | discriminate].
Qed.

Lemma place_bet_first_failing_check_witness :
  place_bet (Sample.wager 80 [2; 0.9]%float) Sample.after_75
  = (Raise invalid_odds, Sample.after_75) /\
  place_bet (Sample.wager 80 [2; 1.5]%float) Sample.after_75
  = (Raise insufficient_balance, Sample.after_75) /\
  place_bet {| bet_user_id := "0000000000000000000000aa";
               bet_stake := 10; bet_selections := [] |} Sample.after_75
  = (Raise user_not_found, Sample.after_75) /\
  place_bet {| bet_user_id := "00 00 00 00 00 00 00 00 ";
               bet_stake := 10; bet_selections := [] |} Sample.after_75
  = (Raise user_not_found, Sample.after_75) /\
  place_bet {| bet_user_id := "abebe";
               bet_stake := 10; bet_selections := [] |} Sample.after_75
  = (Raise invalid_user_id, Sample.after_75).
Proof.
  split; [|split; [|split; [|split]]].
  - destruct (place_bet_first_failing_check
                (Sample.wager 80 [2; 0.9]%float) Sample.after_75
                Sample.after_75_database sample_after_75_db)
      as (_ & _ & _ & _ & Hfound & _).
    apply (Hfound 0%N Sample.abebe_with_75 eq_refl sample_after_75_user).
    reflexivity.
  - destruct (place_bet_first_failing_check
                (Sample.wager 80 [2; 1.5]%float) Sample.after_75
                Sample.after_75_database sample_after_75_db)
      as (_ & _ & _ & _ & Hfound & _).
    apply (Hfound 0%N Sample.abebe_with_75 eq_refl sample_after_75_user);
      [discriminate | reflexivity | reflexivity].
  - destruct (place_bet_first_failing_check
                {| bet_user_id := "0000000000000000000000aa";
                   bet_stake := 10; bet_selections := [] |}
                Sample.after_75
                Sample.after_75_database sample_after_75_db)
      as (_ & _ & _ & Habsent & _).
    apply (Habsent 170%N); [reflexivity | vm_compute; reflexivity].
  - destruct (place_bet_first_failing_check
                {| bet_user_id := "00 00 00 00 00 00 00 00 ";
                   bet_stake := 10; bet_selections := [] |}
                Sample.after_75
                Sample.after_75_database sample_after_75_db)
      as (_ & _ & Hshort & _).
    apply Hshort. reflexivity.
  - destruct (place_bet_first_failing_check
                {| bet_user_id := "abebe";
                   bet_stake := 10; bet_selections := [] |}
                Sample.after_75
                Sample.after_75_database sample_after_75_db)
      as (_ & Hlen & _).
    apply Hlen. discriminate.
Defined.

(** X6.  A [place_bet] that returns has set the user's balance to
    [round(balance - stake, 2)], which is the balance it returns, has
    appended one bet and one ledger row of type "bet_place" whose amount is
    [-stake], whose [balance_after] is the new balance and whose reference
    is the [bet_id] it returns, the printed identifier of the new bet; the
    matches, the name and phone of the user and the documents of the other
    users are as before. *)
Theorem place_bet_deducts_and_records (p : PlaceBetRequest) (w w' : World)
  (resp : PlaceBetResponse) :
  place_bet p w = (Return resp, w') ->
  exists d d' o u u' b t,
    db w = Some d /\ db w' = Some d' /\
    Bson.ObjectId (bet_user_id p) = Some (Bson.Oid12 o) /\
    Collection.find_one (by_id o) (user d) = Some u /\
    resp_bet_balance resp
    = PyFloat.round2 (PrimFloat.sub (u_balance u) (bet_stake p)) /\
    Collection.find_one (by_id o) (user d') = Some u' /\
    u_balance u' = resp_bet_balance resp /\
    u_name u' = u_name u /\ u_phone u' = u_phone u /\
    bet d' = bet d ++ [b] /\
    resp_bet_id resp = Bson.str (b_id b) /\
    b_user_id b = bet_user_id p /\
    wallettransaction d' = wallettransaction d ++ [t] /\
    t_user_id t = bet_user_id p /\ t_type t = "bet_place" /\
    t_amount t = PrimFloat.opp (bet_stake p) /\
    t_balance_after t = resp_bet_balance resp /\
    t_reference t = Some (resp_bet_id resp) /\
    match_ d' = match_ d /\
    (forall o', o' <> o ->
       Collection.find_one (by_id o') (user d')
       = Collection.find_one (by_id o') (user d)).
Proof.
  intros Hrun.
  destruct (place_bet_return_inv p w w' resp Hrun)
    as (d & o & u & Hdb & Hid & Hu & _ & _ & _ & -> & ->).
  exists d. eexists. exists o, u.
  exists (set_balance (balance_after_bet p u)
            (bson_datetime (clock w 0%nat)) u).
  exists (placed_bet p w d), (placed_row p w d u).
  split; [exact Hdb|]. split; [reflexivity|]. split; [exact Hid|].
  split; [exact Hu|]. split; [reflexivity|].
  split; [cbn [user]; apply find_one_update_one; [auto | exact Hu]|].
  do 13 (split; [reflexivity|]).
  intros o' Hne. cbn [user].
  apply find_one_update_one_other; [reflexivity|].
  intros x Hx. unfold by_id in *. apply N.eqb_eq in Hx.
  apply N.eqb_neq. congruence.
Qed.

Lemma place_bet_deducts_and_records_witness :
  exists d' t,
    db Sample.after_wager = Some d' /\
    wallettransaction d'
    = wallettransaction Sample.after_75_database ++ [t] /\
    t_amount t = (-10)%float /\ t_balance_after t = 65%float /\
    t_reference t = Some "000000000000000000000003".
Proof.
  destruct (place_bet_deducts_and_records
              (Sample.wager 10 [2; 1.5]%float) Sample.after_75
              Sample.after_wager _ sample_wager_run)
    as (d & d' & o & u & u' & b & t & Hdb & Hdb' & _ & _ & _ & _ & _ & _
        & _ & _ & _ & _ & Hrows & _ & _ & Hamount & Hafter & Href & _).
  exists d', t.
  assert (d = Sample.after_75_database) as <-
    by (rewrite sample_after_75_db in Hdb; congruence).
  repeat split; assumption.
Defined.

(** ** Handlers that only read *)

Lemma list_bets_available (user_id : string) (w : World) (d : Database) :
  db w = Some d ->
  list_bets user_id w
  = (Return (Collection.sort_desc b_created_at
               (List.filter (fun b => String.eqb (b_user_id b) user_id)
                  (bet d))), w).
Proof.
  intros Hdb. unfold list_bets. unfold_handler. rewrite Hdb. rewrite Hdb.
  destruct w; simpl in *; subst; reflexivity.
Qed.

Lemma list_matches_available (w : World) (d : Database) :
  db w = Some d ->
  list_matches w
  = (Return (Collection.sort_asc m_start_time (match_ d)), w).
Proof.
  intros Hdb. unfold list_matches. unfold_handler. rewrite Hdb. rewrite Hdb.
  destruct w; simpl in *; subst; reflexivity.
Qed.

(** X7.  [login_user], [get_user], [list_transactions], [list_matches] and
    [list_bets] never change the world: whatever their arguments, and
    whether they return or raise, the datastore and the clock are as
    before. *)
Theorem reading_handlers_write_nothing (w : World) :
  (forall p, snd (login_user p w) = w) /\
  (forall i, snd (get_user i w) = w) /\
  (forall i n, snd (list_transactions i n w) = w) /\
  snd (list_matches w) = w /\
  (forall i, snd (list_bets i w) = w).
Proof.
  destruct (db w) as [d|] eqn:Hdb.
  - repeat split; intros.
    + now rewrite (login_user_available p w d Hdb).
    + now rewrite (get_user_available i w d Hdb).
    + now rewrite (list_transactions_available i n w d Hdb).
    + now rewrite (list_matches_available w d Hdb).
    + now rewrite (list_bets_available i w d Hdb).
  - repeat split; intros;
      unfold login_user, get_user, list_transactions, list_matches,
        list_bets, bind, require_db; now rewrite Hdb.
Qed.

(** ** The balance read after a write *)

(** X8.  The balance that [topup_wallet] or [place_bet] returns is the
    balance [get_user] reports for the same user id right after, together
    with the user's unchanged name and phone. *)
Theorem get_user_reports_returned_balance (w w' : World) :
  (forall p resp,
      topup_wallet p w = (Return resp, w') ->
      exists o u,
        stored_user o w = Some u /\
        get_user (topup_user_id p) w'
        = (Return {| resp_user_id := Bson.str o; resp_name := u_name u;
                     resp_phone := u_phone u;
                     resp_balance := topup_balance resp |}, w')) /\
  (forall p resp,
      place_bet p w = (Return resp, w') ->
      exists o u,
        stored_user o w = Some u /\
        get_user (bet_user_id p) w'
        = (Return {| resp_user_id := Bson.str o; resp_name := u_name u;
                     resp_phone := u_phone u;
                     resp_balance := resp_bet_balance resp |}, w')).
Proof.
  split; intros p resp Hrun.
  - rewrite (topup_wallet_cases p w) in Hrun. unfold stored_user.
    destruct (db w) as [d|]; [|discriminate].
    destruct (Bson.ObjectId (topup_user_id p)) as [[o|]|] eqn:Hid;
      [|discriminate|discriminate].
    destruct (Collection.find_one (by_id o) (user d)) as [u|] eqn:Hu;
      [|discriminate].
    pose proof (f_equal fst Hrun) as Hresp.
    pose proof (f_equal snd Hrun) as Hworld.
    cbn [fst snd] in Hresp, Hworld. injection Hresp as <-. subst w'.
    exists o, u. split; [exact Hu|].
    rewrite (get_user_available _ (topped_world p w d o u) _ eq_refl), Hid.
    cbn [user by_object_id].
    rewrite (find_one_update_one (by_id o) _ (user d) u); [|auto|exact Hu].
    destruct (find_one_by_id o _ u Hu) as [_ <-]. reflexivity.
  - destruct (place_bet_return_inv p w w' resp Hrun)
      as (d & o & u & Hdb & Hid & Hu & _ & _ & _ & -> & ->).
    unfold stored_user. rewrite Hdb. exists o, u. split; [exact Hu|].
    rewrite (get_user_available _ (placed_world p w d o u) _ eq_refl), Hid.
    cbn [user by_object_id].
    rewrite (find_one_update_one (by_id o) _ (user d) u); [|auto|exact Hu].
    destruct (find_one_by_id o _ u Hu) as [_ <-]. reflexivity.
Qed.

Lemma get_user_reports_returned_balance_witness :
  exists o u,
    stored_user o Sample.after_75 = Some u /\
    get_user Sample.abebe_id Sample.after_wager
    = (Return {| resp_user_id := Bson.str o; resp_name := u_name u;
                 resp_phone := u_phone u; resp_balance := 65 |},
       Sample.after_wager).
Proof.
  exact (proj2 (get_user_reports_returned_balance Sample.after_75
                  Sample.after_wager)
           (Sample.wager 10 [2; 1.5]%float) _ sample_wager_run).
Defined.

(** ** Odds that are not a number *)

Lemma mul_nan_r (x : float) : PrimFloat.mul x PrimFloat.nan = PrimFloat.nan.
Proof.
  apply Prim2SF_inj. rewrite FloatAxioms.mul_spec.
  change (Prim2SF PrimFloat.nan) with S754_nan.
  now destruct (Prim2SF x).
Qed.

Lemma mul_nan_l (x : float) : PrimFloat.mul PrimFloat.nan x = PrimFloat.nan.
Proof.
  apply Prim2SF_inj. rewrite FloatAxioms.mul_spec.
  change (Prim2SF PrimFloat.nan) with S754_nan. reflexivity.
Qed.

Lemma fold_mul_nan (odds : list float) :
  List.fold_left PrimFloat.mul odds PrimFloat.nan = PrimFloat.nan.
Proof.
  induction odds as [|x rest IH]; simpl; [reflexivity|].
  now rewrite mul_nan_l.
Qed.

Lemma odds_product_nan (selections : list BetSelection) (s : BetSelection)
  (start : float) :
  In s selections -> sel_odds s = PrimFloat.nan ->
  odds_product selections start = PrimFloat.nan.
Proof.
  unfold odds_product. revert start.
  induction selections as [|x rest IH]; simpl; intros start Hin Hnan;
    [contradiction|].
  destruct Hin as [-> | Hin].
  - rewrite Hnan, mul_nan_r. apply fold_mul_nan.
  - now apply IH.
Qed.

(** X9.  A selection whose odds are NaN passes the odds check, since
    [nan <= 1.0] is false; if the request is accepted, the
    [potential_return] it returns and stores is NaN. *)
Theorem place_bet_nan_odds (p : PlaceBetRequest) (w w' : World)
  (resp : PlaceBetResponse) (s : BetSelection) :
  In s (bet_selections p) ->
  sel_odds s = PrimFloat.nan ->
  odds_rejected s = false /\
  (place_bet p w = (Return resp, w') ->
   resp_potential_return resp = PrimFloat.nan /\
   exists d d' b, db w = Some d /\ db w' = Some d' /\
                  bet d' = bet d ++ [b] /\
                  b_potential_return b = PrimFloat.nan).
Proof.
  intros Hin Hnan. split.
  - unfold odds_rejected. rewrite Hnan. reflexivity.
  - intros Hrun.
    destruct (place_bet_return_inv p w w' resp Hrun)
      as (d & o & u & Hdb & _ & _ & _ & _ & _ & -> & ->).
    assert (potential_return_of p = PrimFloat.nan) as Hret.
    { unfold potential_return_of.
      rewrite (odds_product_nan _ s _ Hin Hnan), mul_nan_r. reflexivity. }
    split; [exact Hret|].
    exists d. eexists. exists (placed_bet p w d).
    split; [exact Hdb|]. split; [reflexivity|].
    split; [reflexivity | exact Hret].
Qed.

Lemma sample_nan_wager_run :
  place_bet (Sample.wager 10 [2; PrimFloat.nan]%float) Sample.after_75
  = (Return {| resp_bet_id := "000000000000000000000003";
               resp_potential_return := PrimFloat.nan;
               resp_bet_balance := 65 |},
     snd (place_bet (Sample.wager 10 [2; PrimFloat.nan]%float)
            Sample.after_75)).
Proof. vm_compute. reflexivity. Qed.

Lemma place_bet_nan_odds_witness :
  odds_rejected (Sample.leg PrimFloat.nan) = false /\
  exists resp w',
    place_bet (Sample.wager 10 [2; PrimFloat.nan]%float) Sample.after_75
    = (Return resp, w') /\
    resp_potential_return resp = PrimFloat.nan.
Proof.
  destruct (place_bet_nan_odds
              (Sample.wager 10 [2; PrimFloat.nan]%float) Sample.after_75
              (snd (place_bet (Sample.wager 10 [2; PrimFloat.nan]%float)
                      Sample.after_75))
              {| resp_bet_id := "000000000000000000000003";
                 resp_potential_return := PrimFloat.nan;
                 resp_bet_balance := 65 |}
              (Sample.leg PrimFloat.nan)
              (or_intror (or_introl eq_refl)) eq_refl) as [Hpass Hret].
  split; [exact Hpass|].
  do 2 eexists. split; [exact sample_nan_wager_run|].
  exact (proj1 (Hret sample_nan_wager_run)).
Defined.

(** ** Sorted listings *)

Section SortedListings.

Context {D : Type}.
Variable key : D -> Z.

Lemma insert_desc_sorted (d : D) (sorted : list D) :
  newest_first key sorted ->
  newest_first key (Collection.insert_desc key d sorted).
Proof.
  unfold newest_first.
  induction sorted as [|x rest IH]; simpl; intros Hs.
  - repeat constructor.
  - inversion Hs as [|? ? Hrest Hx]; subst.
    destruct (key x <=? key d)%Z eqn:Hle.
    + apply Z.leb_le in Hle. constructor; [exact Hs|].
      constructor; [lia|].
      eapply Forall_impl; [|exact Hx]. simpl. intros a Ha. lia.
    + apply Z.leb_gt in Hle. constructor; [now apply IH|].
      apply (Permutation_Forall
               (Permutation_sym (insert_desc_perm key d rest))).
      constructor; [lia | assumption].
Qed.

Lemma sort_desc_sorted (docs : list D) :
  newest_first key (Collection.sort_desc key docs).
Proof.
  unfold Collection.sort_desc.
  induction docs as [|d rest IH]; simpl; [constructor|].
  now apply insert_desc_sorted.
Qed.

Lemma insert_asc_perm (d : D) (sorted : list D) :
  Permutation (Collection.insert_asc key d sorted) (d :: sorted).
Proof.
  induction sorted as [|x rest IH]; simpl; [reflexivity|].
  destruct (key d <=? key x)%Z; [reflexivity|].
  rewrite IH. apply perm_swap.
Qed.

Lemma sort_asc_perm (docs : list D) :
  Permutation (Collection.sort_asc key docs) docs.
Proof.
  unfold Collection.sort_asc.
  induction docs as [|d rest IH]; simpl; [reflexivity|].
  rewrite insert_asc_perm. now constructor.
Qed.

Lemma insert_asc_sorted (d : D) (sorted : list D) :
  earliest_first key sorted ->
  earliest_first key (Collection.insert_asc key d sorted).
Proof.
  unfold earliest_first.
  induction sorted as [|x rest IH]; simpl; intros Hs.
  - repeat constructor.
  - inversion Hs as [|? ? Hrest Hx]; subst.
    destruct (key d <=? key x)%Z eqn:Hle.
    + apply Z.leb_le in Hle. constructor; [exact Hs|].
      constructor; [lia|].
      eapply Forall_impl; [|exact Hx]. simpl. intros a Ha. lia.
    + apply Z.leb_gt in Hle. constructor; [now apply IH|].
      apply (Permutation_Forall
               (Permutation_sym (insert_asc_perm d rest))).
      constructor; [lia | assumption].
Qed.

Lemma sort_asc_sorted (docs : list D) :
  earliest_first key (Collection.sort_asc key docs).
Proof.
  unfold Collection.sort_asc.
  induction docs as [|d rest IH]; simpl; [constructor|].
  now apply insert_asc_sorted.
Qed.

(** The sorts are stable: the documents with one key come out in the
    order they are stored in. *)
Lemma insert_desc_stable (k : Z) (d : D) (sorted : list D) :
  List.filter (fun x => (key x =? k)%Z) (Collection.insert_desc key d sorted)
  = List.filter (fun x => (key x =? k)%Z) (d :: sorted).
Proof.
  induction sorted as [|x rest IH]; [reflexivity|].
  cbn [Collection.insert_desc].
  destruct (key x <=? key d)%Z eqn:Hle; [reflexivity|].
  apply Z.leb_gt in Hle. cbn [List.filter] in *. rewrite IH.
  destruct (Z.eqb_spec (key x) k), (Z.eqb_spec (key d) k);
    try reflexivity.
  lia.
Qed.

Lemma sort_desc_stable (k : Z) (docs : list D) :
  List.filter (fun x => (key x =? k)%Z) (Collection.sort_desc key docs)
  = List.filter (fun x => (key x =? k)%Z) docs.
Proof.
  unfold Collection.sort_desc.
  induction docs as [|d rest IH]; [reflexivity|].
  cbn [List.fold_right]. rewrite insert_desc_stable.
  cbn [List.filter]. now rewrite IH.
Qed.

Lemma insert_asc_stable (k : Z) (d : D) (sorted : list D) :
  List.filter (fun x => (key x =? k)%Z) (Collection.insert_asc key d sorted)
  = List.filter (fun x => (key x =? k)%Z) (d :: sorted).
Proof.
  induction sorted as [|x rest IH]; [reflexivity|].
  cbn [Collection.insert_asc].
  destruct (key d <=? key x)%Z eqn:Hle; [reflexivity|].
  apply Z.leb_gt in Hle. cbn [List.filter] in *. rewrite IH.
  destruct (Z.eqb_spec (key x) k), (Z.eqb_spec (key d) k);
    try reflexivity.
  lia.
Qed.

Lemma sort_asc_stable (k : Z) (docs : list D) :
  List.filter (fun x => (key x =? k)%Z) (Collection.sort_asc key docs)
  = List.filter (fun x => (key x =? k)%Z) docs.
Proof.
  unfold Collection.sort_asc.
  induction docs as [|d rest IH]; [reflexivity|].
  cbn [List.fold_right]. rewrite insert_asc_stable.
  cbn [List.filter]. now rewrite IH.
Qed.

Lemma in_firstn (n : nat) (docs : list D) (x : D) :
  In x (List.firstn n docs) -> In x docs.
Proof.
  intros Hin. rewrite <- (List.firstn_skipn n docs).
  apply List.in_or_app. now left.
Qed.

Lemma in_skipn (n : nat) (docs : list D) (x : D) :
  In x (List.skipn n docs) -> In x docs.
Proof.
  intros Hin. rewrite <- (List.firstn_skipn n docs).
  apply List.in_or_app. now right.
Qed.

(** In a list sorted newest first, what [firstn] keeps is at least as new
    as what it drops. *)
Lemma firstn_newest (n : nat) (sorted : list D) (kept dropped : D) :
  newest_first key sorted ->
  In kept (List.firstn n sorted) -> In dropped (List.skipn n sorted) ->
  (key dropped <= key kept)%Z.
Proof.
  unfold newest_first. revert n.
  induction sorted as [|x rest IH]; intros n Hs Hkept Hdropped.
  - rewrite List.firstn_nil in Hkept. contradiction.
  - destruct n as [|n]; [contradiction|].
    inversion Hs as [|? ? Hrest Hx]; subst. simpl in Hkept, Hdropped.
    destruct Hkept as [<- | Hkept].
    + rewrite Forall_forall in Hx. apply Hx.
      exact (in_skipn n rest dropped Hdropped).
    + exact (IH n Hrest Hkept Hdropped).
Qed.

Lemma firstn_sorted (n : nat) (sorted : list D) :
  newest_first key sorted -> newest_first key (List.firstn n sorted).
Proof.
  unfold newest_first. revert n.
  induction sorted as [|x rest IH]; intros [|n] Hs; simpl;
    try constructor.
  - inversion Hs; subst. now apply IH.
  - inversion Hs as [|? ? _ Hx]; subst.
    rewrite Forall_forall in *. intros a Ha. apply Hx.
    exact (in_firstn n rest a Ha).
Qed.

Lemma limit_sorted (n : Z) (sorted : list D) :
  newest_first key sorted -> newest_first key (Collection.limit n sorted).
Proof.
  intros Hs. destruct n; simpl; [exact Hs | |]; now apply firstn_sorted.
Qed.

Lemma limit_In (n : Z) (docs : list D) (x : D) :
  In x (Collection.limit n docs) -> In x docs.
Proof.
  destruct n; simpl; [auto | |]; apply in_firstn.
Qed.

End SortedListings.

(** X10.  With the datastore available, [list_transactions] returns rows
    stored under the given user id only, newest first.  With a positive
    limit it returns [min(limit, number of such rows)] of them, and each
    row it returns is at least as new as each row it leaves out. *)
Theorem list_transactions_newest_first (user_id : string) (limit : Z)
  (w : World) (d : Database) :
  db w = Some d ->
  exists items,
    list_transactions user_id limit w = (Return items, w) /\
    newest_first t_created_at items /\
    (forall t, In t items ->
       In t (wallettransaction d) /\ t_user_id t = user_id) /\
    ((0 < limit)%Z ->
     List.length items
     = Nat.min (Z.to_nat limit) (List.length (rows_of user_id d)) /\
     forall t t', In t items -> In t' (rows_of user_id d) ->
       In t' items \/ (t_created_at t' <= t_created_at t)%Z).
Proof.
  intros Hdb. rewrite (list_transactions_available user_id limit w d Hdb).
  eexists. split; [reflexivity|].
  split; [apply limit_sorted, sort_desc_sorted|]. split.
  - intros t Hin. apply limit_In in Hin.
    apply (Permutation_in _ (sort_desc_perm t_created_at _)) in Hin.
    unfold rows_of in Hin. apply List.filter_In in Hin.
    destruct Hin as [Hin Heq]. split; [exact Hin|].
    now apply String.eqb_eq.
  - intros Hpos. destruct limit as [|k|k]; try lia. cbn [Collection.limit].
    split.
    + rewrite List.length_firstn.
      rewrite (Permutation_length (sort_desc_perm t_created_at _)).
      reflexivity.
    + intros t t' Hin Hin'.
      apply (Permutation_in _
               (Permutation_sym (sort_desc_perm t_created_at _))) in Hin'.
      rewrite <- (List.firstn_skipn (Pos.to_nat k)
                    (Collection.sort_desc t_created_at (rows_of user_id d)))
        in Hin'.
      apply List.in_app_or in Hin'. destruct Hin' as [Hkept | Hdropped];
        [now left | right].
      exact (firstn_newest t_created_at _ _ t t'
               (sort_desc_sorted t_created_at _) Hin Hdropped).
Qed.

Lemma list_transactions_newest_first_witness :
  exists items,
    list_transactions Sample.abebe_id 2 Sample.after_wager
    = (Return items, Sample.after_wager) /\
    List.length items = 2%nat.
Proof.
  destruct (list_transactions_newest_first Sample.abebe_id 2
              Sample.after_wager Sample.after_wager_database
              sample_after_wager_db)
    as (items & Hrun & _ & _ & Hcount).
  exists items. split; [exact Hrun|].
  destruct (Hcount eq_refl) as [Hlen _].
  exact (eq_trans Hlen
           (f_equal (Nat.min 2) sample_rows_length)).
Defined.

(** X11.  With limit 1 and at least one row stored under the user id,
    [list_transactions] returns exactly one row, and no row stored under
    that user id is newer. *)
Theorem list_transactions_limit_1_most_recent (user_id : string)
  (w : World) (d : Database) :
  db w = Some d ->
  rows_of user_id d <> [] ->
  exists newest,
    list_transactions user_id 1 w = (Return [newest], w) /\
    In newest (rows_of user_id d) /\
    forall t, In t (rows_of user_id d) ->
      (t_created_at t <= t_created_at newest)%Z.
Proof.
  intros Hdb Hrows.
  rewrite (list_transactions_available user_id 1 w d Hdb).
  pose proof (sort_desc_perm t_created_at (rows_of user_id d)) as Hperm.
  pose proof (sort_desc_sorted t_created_at (rows_of user_id d)) as Hsorted.
  destruct (Collection.sort_desc t_created_at (rows_of user_id d))
    as [|x rest].
  - apply Permutation_nil in Hperm. contradiction.
  - exists x. split; [reflexivity|].
    split; [apply (Permutation_in _ Hperm); now left|].
    intros t Hin.
    apply (Permutation_in _ (Permutation_sym Hperm)) in Hin.
    inversion Hsorted as [|? ? _ Hx]; subst.
    destruct Hin as [<- | Hin]; [lia|].
    rewrite Forall_forall in Hx. now apply Hx.
Qed.

Lemma list_transactions_limit_1_most_recent_witness :
  exists newest,
    list_transactions Sample.abebe_id 1 Sample.after_wager
    = (Return [newest], Sample.after_wager) /\
    In newest (rows_of Sample.abebe_id Sample.after_wager_database).
Proof.
  destruct (list_transactions_limit_1_most_recent Sample.abebe_id
              Sample.after_wager Sample.after_wager_database
              sample_after_wager_db)
    as (newest & Hrun & Hin & _).
  - intros Hnil. pose proof sample_rows_length as Hlen.
    rewrite Hnil in Hlen. discriminate.
  - exists newest. split; assumption.
Defined.

(** X12.  With the datastore available, [list_bets] returns all the bets
    stored under the given user id, each once, newest first, with no
    limit. *)
Theorem list_bets_newest_first (user_id : string) (w : World)
  (d : Database) :
  db w = Some d ->
  exists items,
    list_bets user_id w = (Return items, w) /\
    Permutation items
      (List.filter (fun b => String.eqb (b_user_id b) user_id) (bet d)) /\
    newest_first b_created_at items /\
    (forall b, In b items <-> In b (bet d) /\ b_user_id b = user_id).
Proof.
  intros Hdb. rewrite (list_bets_available user_id w d Hdb).
  eexists. split; [reflexivity|].
  split; [apply sort_desc_perm|]. split; [apply sort_desc_sorted|].
  intros b. split.
  - intros Hin. apply (Permutation_in _ (sort_desc_perm b_created_at _)) in Hin.
    apply List.filter_In in Hin. destruct Hin as [Hin Heq].
    split; [exact Hin | now apply String.eqb_eq].
  - intros [Hin Heq].
    apply (Permutation_in _ (Permutation_sym (sort_desc_perm b_created_at _))).
    apply List.filter_In. split; [exact Hin | now apply String.eqb_eq].
Qed.

Lemma list_bets_newest_first_witness :
  exists items,
    list_bets Sample.abebe_id Sample.after_wager
    = (Return items, Sample.after_wager) /\
    Permutation items (bet Sample.after_wager_database).
Proof.
  destruct (list_bets_newest_first Sample.abebe_id Sample.after_wager
              Sample.after_wager_database sample_after_wager_db)
    as (items & Hrun & Hperm & _).
  exists items. split; [exact Hrun | exact Hperm].
Defined.

(** X13.  With the datastore available, [list_matches] returns every
    stored match, each once, by [start_time] from the earliest on. *)
Theorem list_matches_earliest_first (w : World) (d : Database) :
  db w = Some d ->
  exists items,
    list_matches w = (Return items, w) /\
    Permutation items (match_ d) /\
    earliest_first m_start_time items.
Proof.
  intros Hdb. rewrite (list_matches_available w d Hdb).
  eexists. split; [reflexivity|].
  split; [apply sort_asc_perm | apply sort_asc_sorted].
Qed.

Lemma list_matches_earliest_first_witness :
  exists items,
    list_matches Sample.seeded = (Return items, Sample.seeded) /\
    Permutation items (match_ Sample.seeded_database) /\
    List.map m_home_team items
    = ["Saint George"; "Fasil Kenema"; "Addis Lions"] /\
    List.map m_start_time items
    = [1700000000000000; 1700000000000000; 1700000000000000]%Z.
Proof.
  destruct (list_matches_earliest_first Sample.seeded
              Sample.seeded_database sample_seeded_db)
    as (items & Hrun & Hperm & _).
  exists items. split; [exact Hrun|]. split; [exact Hperm|].
  pose proof (f_equal fst Hrun) as Hitems. cbn [fst] in Hitems.
  vm_compute in Hitems. injection Hitems as <-.
  split; reflexivity.
Defined.

(** ** Seeding twice *)

(** X14.  [seed_matches] never raises, and running it again right after
    changes nothing more: once it has run on an available datastore the
    match collection is not empty. *)
Theorem seed_matches_idempotent (w : World) :
  fst (seed_matches w) = Return tt /\
  seed_matches (snd (seed_matches w)) = (Return tt, snd (seed_matches w)) /\
  (forall d', db (snd (seed_matches w)) = Some d' -> match_ d' <> []).
Proof.
  unfold seed_matches at 1 3 4 5.
  destruct (db w) as [d|] eqn:Hdb.
  - unfold_handler. rewrite Hdb.
    destruct (match_ d) as [|m rest] eqn:Hm; cbn.
    + rewrite Hm. cbn. split; [reflexivity|]. split.
      * unfold seed_matches. cbn. reflexivity.
      * intros d' [= <-]. cbn. discriminate.
    + split; [reflexivity|]. split.
      * unfold seed_matches. unfold_handler. cbn. rewrite Hm. cbn.
        reflexivity.
      * intros d' [= <-]. rewrite Hm. discriminate.
  - cbn. split; [reflexivity|]. split.
    + unfold seed_matches. now rewrite Hdb.
    + intros d'. rewrite Hdb. discriminate.
Qed.

(** ** What serving a request may change *)

Lemma register_user_cases (p : RegisterRequest) (w : World) :
  register_user p w
  = match db w with
    | None => (Raise database_unavailable, w)
    | Some d =>
        match Collection.find_one (by_phone (reg_phone p)) (user d) with
        | Some _ => (Raise phone_taken, w)
        | None =>
            (Return {| resp_user_id := Bson.str (next_oid d);
                       resp_name := reg_name p; resp_phone := reg_phone p;
                       resp_balance := 0%float |},
             registered_world p w d)
        end
    end.
Proof.
  destruct (db w) as [d|] eqn:Hdb.
  2:{ unfold register_user, bind, require_db. now rewrite Hdb. }
  destruct (Collection.find_one (by_phone (reg_phone p)) (user d))
    as [u|] eqn:Hfind.
  - apply (register_user_conflict p w d Hdb).
    destruct (find_one_by_phone_in _ _ _ Hfind) as [Hin Hp]. eauto.
  - apply (register_user_fresh p w d Hdb).
    now apply find_one_by_phone_none.
Qed.

Lemma serve_transition (r : Request) (w : World) :
  transition w (serve r w).
Proof.
  destruct (db w) as [d|] eqn:Hdb.
  2:{ apply transition_none.
      destruct r; simpl;
        unfold register_user, login_user, get_user, topup_wallet,
          list_transactions, list_matches, list_bets, place_bet,
          bind, require_db; now rewrite Hdb. }
  destruct r as [p|p|i|p|i n| |i|p]; simpl.
  - rewrite (register_user_cases p w), Hdb.
    destruct (Collection.find_one (by_phone (reg_phone p)) (user d))
      eqn:Hfind; [now apply transition_none|].
    now apply (transition_register w _ d p).
  - rewrite (login_user_available p w d Hdb). now apply transition_none.
  - rewrite (get_user_available i w d Hdb). now apply transition_none.
  - rewrite (topup_wallet_cases p w), Hdb.
    destruct (Bson.ObjectId (topup_user_id p)) as [[o|]|] eqn:Hid;
      [|now apply transition_none|now apply transition_none].
    destruct (Collection.find_one (by_id o) (user d)) as [u|] eqn:Hu;
      [|now apply transition_none].
    now apply (transition_topup w _ d p o u).
  - rewrite (list_transactions_available i n w d Hdb).
    now apply transition_none.
  - rewrite (list_matches_available w d Hdb). now apply transition_none.
  - rewrite (list_bets_available i w d Hdb). now apply transition_none.
  - rewrite (place_bet_cases p w), Hdb.
    destruct (Bson.ObjectId (bet_user_id p)) as [[o|]|] eqn:Hid;
      [|now apply transition_none|now apply transition_none].
    destruct (Collection.find_one (by_id o) (user d)) as [u|] eqn:Hu;
      [|now apply transition_none].
    destruct (bet_selections p); [now apply transition_none|].
    destruct (List.existsb _ _); [now apply transition_none|].
    destruct (PrimFloat.ltb _ _); [now apply transition_none|].
    now apply (transition_bet w _ d p o u).
Qed.

(** An invariant of the datastore that every transition keeps holds after
    every run. *)
Lemma run_invariant (P : Database -> Prop) :
  (forall w w' d d', transition w w' -> db w = Some d -> db w' = Some d' ->
                     P d -> P d') ->
  forall rs w d d',
    db w = Some d -> db (run rs w) = Some d' -> P d -> P d'.
Proof.
  intros Hstep rs. induction rs as [|r rest IH]; simpl; intros w d d' Hd Hd' HP.
  - congruence.
  - pose proof (serve_transition r w) as Ht.
    destruct (db (serve r w)) as [d1|] eqn:Hd1.
    + exact (IH (serve r w) d1 d' Hd1 Hd' (Hstep w _ d d1 Ht Hd Hd1 HP)).
    + exfalso.
      assert (forall rs' w1, db w1 = None -> db (run rs' w1) = None) as Hnone.
      { intros rs'. induction rs' as [|r' rest' IH']; simpl; intros w1 H1;
          [exact H1|].
        apply IH'. pose proof (serve_transition r' w1) as Ht1.
        destruct Ht1 as [Hsame | d0 ? H0 | d0 ? ? ? H0 | d0 ? ? ? H0];
          congruence. }
      rewrite (Hnone rest (serve r w) Hd1) in Hd'. discriminate.
Qed.

Section UpdateOne.

Context {D B : Type}.
Variables (p : D -> bool) (f : D -> D) (g : D -> B).

(** A field that the rewriting keeps is the same in the whole
    collection. *)
Lemma map_update_one (docs : list D) :
  (forall x, g (f x) = g x) ->
  List.map g (Collection.update_one p f docs) = List.map g docs.
Proof.
  intros Hg. induction docs as [|x rest IH]; simpl; [reflexivity|].
  destruct (p x); simpl; [now rewrite Hg | now rewrite IH].
Qed.

End UpdateOne.

(** A user found before a balance update is found after it. *)
Lemma find_one_by_id_kept (o o' : Bson.oid) (b : float) (t : datetime)
  (users : list UserDoc) (u' : UserDoc) :
  Collection.find_one (by_id o') users = Some u' ->
  exists u'',
    Collection.find_one (by_id o')
      (Collection.update_one (by_id o) (set_balance b t) users) = Some u''.
Proof.
  intros Hu'. destruct (N.eq_dec o' o) as [->|Hne].
  - exists (set_balance b t u'). apply find_one_update_one; auto.
  - exists u'. rewrite find_one_update_one_other; [exact Hu'|reflexivity|].
    intros x Hx. unfold by_id in *. apply N.eqb_eq in Hx.
    apply N.eqb_neq. congruence.
Qed.

(** ** Invariants over every run *)

Lemma transition_unique (w w' : World) (d d' : Database) :
  transition w w' -> db w = Some d -> db w' = Some d' ->
  ids_assigned d /\ unique_users d -> ids_assigned d' /\ unique_users d'.
Proof.
  intros Ht Hd Hd' [Hids [Hnid Hnph]].
  destruct Ht as [Hsame | d0 p H0 Hfree -> | d0 p o u H0 Hid Hu ->
                 | d0 p o u H0 Hid Hu ->].
  - assert (d' = d) as -> by congruence. repeat split; assumption.
  - assert (d0 = d) as -> by congruence.
    injection Hd' as <-. unfold ids_assigned, unique_users. cbn [user next_oid].
    split; [|split].
    + intros v Hin. apply List.in_app_or in Hin.
      destruct Hin as [Hin | [<- | []]]; [specialize (Hids v Hin)|];
        cbn; lia.
    + rewrite List.map_app. cbn. apply NoDup_app_remove_l with (l := []).
      cbn. apply Permutation_NoDup with (l := next_oid d :: List.map u_id (user d)).
      * apply Permutation_cons_append.
      * constructor; [|exact Hnid].
        intros Hin. apply List.in_map_iff in Hin.
        destruct Hin as (v & Hv & Hin). specialize (Hids v Hin). lia.
    + rewrite List.map_app. cbn.
      apply Permutation_NoDup
        with (l := reg_phone p :: List.map u_phone (user d)).
      * apply Permutation_cons_append.
      * constructor; [|exact Hnph].
        intros Hin. apply List.in_map_iff in Hin.
        destruct Hin as (v & Hv & Hin).
        exact (proj1 (find_one_by_phone_none _ _) Hfree v Hin Hv).
  - assert (d0 = d) as -> by congruence.
    injection Hd' as <-. unfold ids_assigned, unique_users. cbn [user next_oid].
    rewrite !map_update_one by reflexivity.
    split; [|split; assumption].
    intros v Hin. apply update_one_In in Hin.
    destruct Hin as [Hin | (y & Hin & ->)]; specialize (Hids _ Hin);
      cbn; lia.
  - assert (d0 = d) as -> by congruence.
    injection Hd' as <-. unfold ids_assigned, unique_users. cbn [user next_oid].
    rewrite !map_update_one by reflexivity.
    split; [|split; assumption].
    intros v Hin. apply update_one_In in Hin.
    destruct Hin as [Hin | (y & Hin & ->)]; specialize (Hids _ Hin);
      cbn; lia.
Qed.

(** X15.  Whatever requests are served from an empty datastore, no two
    stored users have the same phone and no two have the same identifier;
    and the identifiers of the users are below the next one the datastore
    assigns. *)
Theorem users_stay_unique (rs : list Request) (w0 : World) (d : Database) :
  db w0 = Some empty_database ->
  db (run rs w0) = Some d ->
  NoDup (List.map u_phone (user d)) /\
  NoDup (List.map u_id (user d)) /\
  (forall u, In u (user d) -> (u_id u < next_oid d)%N).
Proof.
  intros Hstart Hend.
  destruct (run_invariant (fun d => ids_assigned d /\ unique_users d)
              transition_unique rs w0 empty_database d Hstart Hend)
    as [Hids [Hnid Hnph]].
  - split; [intros u []|]. split; constructor.
  - auto.
Qed.

Lemma sample_busy_db :
  db (run Sample.busy_requests Sample.fresh_world)
  = Some Sample.busy_database.
Proof. vm_compute. reflexivity. Qed.

Lemma users_stay_unique_witness :
  List.map u_phone (user Sample.busy_database)
  = ["+251911000001"; "+251911000002"] /\
  List.map u_id (user Sample.busy_database) = [0%N; 1%N] /\
  fst (register_user Sample.kebede_same_phone
         (run [Register Sample.abebe; Register Sample.kebede]
            Sample.fresh_world))
  = Raise phone_taken /\
  NoDup (List.map u_phone (user Sample.busy_database)) /\
  NoDup (List.map u_id (user Sample.busy_database)).
Proof.
  destruct (users_stay_unique Sample.busy_requests Sample.fresh_world
              Sample.busy_database eq_refl sample_busy_db)
    as (Hph & Hid & _).
  split; [vm_compute; reflexivity|].
  split; [vm_compute; reflexivity|].
  split; [vm_compute; reflexivity|].
  split; assumption.
Defined.

Lemma extends_refl {A} (l : list A) : extends l l.
Proof. exists []. now rewrite List.app_nil_r. Qed.

Lemma extends_trans {A} (l1 l2 l3 : list A) :
  extends l1 l2 -> extends l2 l3 -> extends l1 l3.
Proof.
  intros [m1 ->] [m2 ->]. exists (m1 ++ m2). now rewrite List.app_assoc.
Qed.

Lemma extends_app {A} (l more : list A) : extends l (l ++ more).
Proof. now exists more. Qed.

Lemma grows_refl (d : Database) : grows d d.
Proof. unfold grows. repeat split; try apply extends_refl. lia. Qed.

Lemma grows_trans (d1 d2 d3 : Database) :
  grows d1 d2 -> grows d2 d3 -> grows d1 d3.
Proof.
  intros (A1 & B1 & C1 & D1 & E1 & F1 & G1) (A2 & B2 & C2 & D2 & E2 & F2 & G2).
  unfold grows. repeat split; try (eapply extends_trans; eassumption).
  - congruence.
  - lia.
Qed.

Lemma transition_grows (w w' : World) (d : Database) :
  transition w w' -> db w = Some d ->
  exists d', db w' = Some d' /\ grows d d'.
Proof.
  intros Ht Hd.
  destruct Ht as [Hsame | d0 p H0 Hfree -> | d0 p o u H0 Hid Hu ->
                 | d0 p o u H0 Hid Hu ->].
  - exists d. split; [congruence | apply grows_refl].
  - assert (d0 = d) as -> by congruence.
    eexists. split; [reflexivity|]. unfold grows. cbn.
    rewrite !List.map_app.
    repeat split; try apply extends_refl; try apply extends_app. lia.
  - assert (d0 = d) as -> by congruence.
    eexists. split; [reflexivity|]. unfold grows. cbn.
    rewrite !map_update_one by reflexivity.
    repeat split; try apply extends_refl; try apply extends_app. lia.
  - assert (d0 = d) as -> by congruence.
    eexists. split; [reflexivity|]. unfold grows. cbn.
    rewrite !map_update_one by reflexivity.
    repeat split; try apply extends_refl; try apply extends_app. lia.
Qed.

(** X16.  Serving requests never makes an available datastore unavailable
    and never removes or rewrites what is stored, the balance and
    [updated_at] of users apart: after any run the ledger and the bets are
    the former ones with rows added at the end, the matches are the same,
    and the users keep their identifiers, phones and names, in order, with
    new users at the end. *)
Theorem stored_documents_are_kept (rs : list Request) (w : World)
  (d : Database) :
  db w = Some d ->
  exists d' txs bets,
    db (run rs w) = Some d' /\
    wallettransaction d' = wallettransaction d ++ txs /\
    bet d' = bet d ++ bets /\
    match_ d' = match_ d /\
    extends (List.map u_id (user d)) (List.map u_id (user d')) /\
    extends (List.map u_phone (user d)) (List.map u_phone (user d')) /\
    extends (List.map u_name (user d)) (List.map u_name (user d')).
Proof.
  intros Hd.
  assert (exists d', db (run rs w) = Some d' /\ grows d d')
    as (d' & Hd' & [txs Ht] & [bets Hb] & Hm & Hi & Hp & Hn & _).
  { revert w d Hd. induction rs as [|r rest IH]; simpl; intros w d Hd.
    - exists d. split; [exact Hd | apply grows_refl].
    - destruct (transition_grows w _ d (serve_transition r w) Hd)
        as (d1 & Hd1 & Hg1).
      destruct (IH _ d1 Hd1) as (d' & Hd' & Hg').
      exists d'. split; [exact Hd' | exact (grows_trans _ _ _ Hg1 Hg')]. }
  exists d', txs, bets. repeat split; assumption.
Qed.

Lemma stored_documents_are_kept_witness :
  exists d' txs,
    db (run [PlaceBet (Sample.wager 10 [2; 1.5]%float)] Sample.after_75)
    = Some d' /\
    wallettransaction d'
    = wallettransaction Sample.after_75_database ++ txs.
Proof.
  destruct (stored_documents_are_kept
              [PlaceBet (Sample.wager 10 [2; 1.5]%float)] Sample.after_75
              Sample.after_75_database sample_after_75_db)
    as (d' & txs & bets & Hd' & Ht & _).
  exists d', txs. split; assumption.
Defined.

Lemma owned_after_update (d : Database) (o : Bson.oid) (b : float)
  (t : datetime) (x : string) :
  (exists o' u', Bson.ObjectId x = Some (Bson.Oid12 o') /\
                 Collection.find_one (by_id o') (user d) = Some u') ->
  exists o' u',
    Bson.ObjectId x = Some (Bson.Oid12 o') /\
    Collection.find_one (by_id o')
      (Collection.update_one (by_id o) (set_balance b t) (user d))
    = Some u'.
Proof.
  intros (o' & u' & Hid & Hu).
  destruct (find_one_by_id_kept o o' b t _ u' Hu) as (u'' & Hu'').
  exists o', u''. split; assumption.
Qed.

Lemma transition_owned (w w' : World) (d d' : Database) :
  transition w w' -> db w = Some d -> db w' = Some d' ->
  owned d -> owned d'.
Proof.
  intros Ht Hd Hd' [Hrows Hbets].
  destruct Ht as [Hsame | d0 p H0 Hfree -> | d0 p o u H0 Hid Hu ->
                 | d0 p o u H0 Hid Hu ->].
  - assert (d' = d) as -> by congruence. split; assumption.
  - assert (d0 = d) as -> by congruence. injection Hd' as <-.
    split; cbn [wallettransaction bet user].
    + intros t Hin. destruct (Hrows t Hin) as (o & u & Hid & Hu).
      exists o, u. split; [exact Hid | now apply find_one_app_l].
    + intros b Hin. destruct (Hbets b Hin) as (o & u & Hid & Hu).
      exists o, u. split; [exact Hid | now apply find_one_app_l].
  - assert (d0 = d) as -> by congruence. injection Hd' as <-.
    split; cbn [wallettransaction bet user].
    + intros t Hin. apply owned_after_update.
      apply List.in_app_or in Hin.
      destruct Hin as [Hin | [<- | []]]; [now apply Hrows|].
      exists o, u. split; [exact Hid | exact Hu].
    + intros b Hin. apply owned_after_update. now apply Hbets.
  - assert (d0 = d) as -> by congruence. injection Hd' as <-.
    split; cbn [wallettransaction bet user].
    + intros t Hin. apply owned_after_update.
      apply List.in_app_or in Hin.
      destruct Hin as [Hin | [<- | []]]; [now apply Hrows|].
      exists o, u. split; [exact Hid | exact Hu].
    + intros b Hin. apply owned_after_update.
      apply List.in_app_or in Hin.
      destruct Hin as [Hin | [<- | []]]; [now apply Hbets|].
      exists o, u. split; [exact Hid | exact Hu].
Qed.

(** X17.  Whatever requests are served from an empty datastore, every
    ledger row and every bet carries a user id that reads as the
    identifier of a stored user: top-ups and bets of unknown users leave
    no trace. *)
Theorem rows_and_bets_have_a_user (rs : list Request) (w0 : World)
  (d : Database) :
  db w0 = Some empty_database ->
  db (run rs w0) = Some d ->
  (forall t, In t (wallettransaction d) ->
     exists o u, Bson.ObjectId (t_user_id t) = Some (Bson.Oid12 o) /\
                 Collection.find_one (by_id o) (user d) = Some u) /\
  (forall b, In b (bet d) ->
     exists o u, Bson.ObjectId (b_user_id b) = Some (Bson.Oid12 o) /\
                 Collection.find_one (by_id o) (user d) = Some u).
Proof.
  intros Hstart Hend.
  apply (run_invariant owned transition_owned rs w0 empty_database d
           Hstart Hend).
  split; intros x [].
Qed.

Lemma sample_wager_row_stored :
  In sample_wager_row (wallettransaction Sample.after_wager_database).
Proof. vm_compute. right. right. left. reflexivity. Qed.

Lemma rows_and_bets_have_a_user_witness :
  exists o u,
    Bson.ObjectId (t_user_id sample_wager_row) = Some (Bson.Oid12 o) /\
    Collection.find_one (by_id o) (user Sample.after_wager_database)
    = Some u.
Proof.
  exact (proj1 (rows_and_bets_have_a_user Sample.requests
                  Sample.fresh_world Sample.after_wager_database
                  eq_refl sample_requests_run)
           sample_wager_row sample_wager_row_stored).
Defined.

Lemma transition_linked (w w' : World) (d d' : Database) :
  transition w w' -> db w = Some d -> db w' = Some d' ->
  ledger_linked d -> ledger_linked d'.
Proof.
  intros Ht Hd Hd' (Hrows & Hlink & Hids & Hnd).
  destruct Ht as [Hsame | d0 p H0 Hfree -> | d0 p o u H0 Hid Hu ->
                 | d0 p o u H0 Hid Hu ->].
  - assert (d' = d) as -> by congruence. repeat split; assumption.
  - assert (d0 = d) as -> by congruence. injection Hd' as <-.
    unfold ledger_linked. cbn [wallettransaction bet next_oid].
    split; [exact Hrows|]. split; [exact Hlink|]. split; [|exact Hnd].
    intros b Hin. specialize (Hids b Hin). lia.
  - assert (d0 = d) as -> by congruence. injection Hd' as <-.
    unfold ledger_linked. cbn [wallettransaction bet next_oid].
    split; [|split; [|split; [|exact Hnd]]].
    + intros t Hin. apply List.in_app_or in Hin.
      destruct Hin as [Hin | [<- | []]]; [now apply Hrows|].
      left. split; reflexivity.
    + rewrite List.filter_app.
      change (List.filter is_bet_place [topped_row p w d u]) with
        (@nil WalletTransactionDoc).
      rewrite List.app_nil_r. exact Hlink.
    + intros b Hin. specialize (Hids b Hin). lia.
  - assert (d0 = d) as -> by congruence. injection Hd' as <-.
    unfold ledger_linked. cbn [wallettransaction bet next_oid].
    split; [|split; [|split]].
    + intros t Hin. apply List.in_app_or in Hin.
      destruct Hin as [Hin | [<- | []]]; [now apply Hrows|].
      right. reflexivity.
    + rewrite List.filter_app.
      change (List.filter is_bet_place [placed_row p w d u]) with
        [placed_row p w d u].
      rewrite !List.map_app, Hlink. reflexivity.
    + intros b Hin. apply List.in_app_or in Hin.
      destruct Hin as [Hin | [<- | []]]; [specialize (Hids b Hin)|];
        cbn; lia.
    + rewrite List.map_app. cbn [List.map b_id placed_bet].
      apply Permutation_NoDup
        with (l := next_oid d :: List.map b_id (bet d)).
      * apply Permutation_cons_append.
      * constructor; [|exact Hnd].
        intros Hin. apply List.in_map_iff in Hin.
        destruct Hin as (b & Hb & Hin). specialize (Hids b Hin). lia.
Qed.

(** A function that is injective on a list without repetition maps it to
    a list without repetition. *)
Lemma NoDup_map_on {A B} (f : A -> B) (l : list A) :
  (forall x y, In x l -> In y l -> f x = f y -> x = y) ->
  NoDup l -> NoDup (List.map f l).
Proof.
  induction l as [|a rest IH]; intros Hinj Hnd; [constructor|].
  inversion Hnd as [|? ? Hnotin Hrest]; subst. cbn. constructor.
  - intros Hin. apply List.in_map_iff in Hin.
    destruct Hin as (y & Hy & Hin). apply Hnotin.
    rewrite (Hinj a y (or_introl eq_refl) (or_intror Hin) (eq_sym Hy)).
    exact Hin.
  - apply IH; [|exact Hrest]. intros x y Hx Hy. apply Hinj; now right.
Qed.

(** X18.  Whatever requests are served from an empty datastore, every
    ledger row is either a "topup" row without reference or a "bet_place"
    row whose reference is the printed identifier of a stored bet with the
    same user id and whose amount is minus the stake of that bet; every
    stored bet has such a row, with its user id and minus its stake as the
    amount; the "bet_place" rows, in the order they were written, are the
    rows of the stored bets in their order, one row for each bet; and no
    two bets have the same identifier, nor the same printed identifier
    while identifiers fit 12 bytes. *)
Theorem ledger_rows_match_bets (rs : list Request) (w0 : World)
  (d : Database) :
  db w0 = Some empty_database ->
  db (run rs w0) = Some d ->
  (forall t, In t (wallettransaction d) ->
     (t_type t = "topup" /\ t_reference t = None) \/
     (t_type t = "bet_place" /\
      exists b, In b (bet d) /\
                t_reference t = Some (Bson.str (b_id b)) /\
                t_user_id t = b_user_id b /\
                t_amount t = PrimFloat.opp (b_stake b))) /\
  (forall b, In b (bet d) ->
     exists t, In t (wallettransaction d) /\
               t_type t = "bet_place" /\
               t_reference t = Some (Bson.str (b_id b)) /\
               t_user_id t = b_user_id b /\
               t_amount t = PrimFloat.opp (b_stake b)) /\
  List.map row_link (List.filter is_bet_place (wallettransaction d))
  = List.map bet_link (bet d) /\
  NoDup (List.map b_id (bet d)) /\
  ((next_oid d <= 16 ^ 24)%N ->
   NoDup (List.map (fun b => Bson.str (b_id b)) (bet d))).
Proof.
  intros Hstart Hend.
  destruct (run_invariant ledger_linked transition_linked rs w0
              empty_database d Hstart Hend)
    as (Hrows & Hlink & Hids & Hnd).
  { split; [intros x []|]. split; [reflexivity|].
    split; [intros x [] | constructor]. }
  split; [|split; [|split; [exact Hlink | split; [exact Hnd|]]]].
  - intros t Hin. destruct (Hrows t Hin) as [Htop | Hty]; [now left|].
    right. split; [exact Hty|].
    assert (In (row_link t) (List.map bet_link (bet d))) as Hb.
    { rewrite <- Hlink. apply List.in_map. apply List.filter_In.
      split; [exact Hin|]. unfold is_bet_place. now rewrite Hty. }
    apply List.in_map_iff in Hb. destruct Hb as (b & Heq & Hb).
    exists b. split; [exact Hb|].
    unfold bet_link, row_link in Heq. injection Heq as Href Huser Hamt.
    auto.
  - intros b Hin.
    assert (In (bet_link b)
              (List.map row_link
                 (List.filter is_bet_place (wallettransaction d)))) as Ht
      by (rewrite Hlink; now apply List.in_map).
    apply List.in_map_iff in Ht. destruct Ht as (t & Heq & Ht).
    apply List.filter_In in Ht. destruct Ht as [Ht Hty].
    exists t. split; [exact Ht|].
    split; [now apply String.eqb_eq|].
    unfold bet_link, row_link in Heq. injection Heq as Href Huser Hamt.
    auto.
  - intros Hfit. rewrite <- (List.map_map b_id Bson.str).
    apply NoDup_map_on; [|exact Hnd].
    intros x y Hx Hy Heq.
    apply List.in_map_iff in Hx. destruct Hx as (bx & <- & Hx).
    apply List.in_map_iff in Hy. destruct Hy as (by_ & <- & Hy).
    pose proof (Hids bx Hx) as Hbx. pose proof (Hids by_ Hy) as Hby.
    assert (Some (Bson.Oid12 (b_id bx)) = Some (Bson.Oid12 (b_id by_)))
      as Hsame.
    { rewrite <- (ObjectId_str (b_id bx)) by lia.
      rewrite <- (ObjectId_str (b_id by_)) by lia. now rewrite Heq. }
    now injection Hsame.
Qed.

Lemma ledger_rows_match_bets_witness :
  List.map b_id (bet Sample.busy_database) = [4%N; 6%N] /\
  List.map t_reference
    (List.filter is_bet_place (wallettransaction Sample.busy_database))
  = [Some "000000000000000000000004"; Some "000000000000000000000006"] /\
  List.map row_link
    (List.filter is_bet_place (wallettransaction Sample.busy_database))
  = List.map bet_link (bet Sample.busy_database) /\
  NoDup (List.map b_id (bet Sample.busy_database)) /\
  NoDup (List.map (fun b => Bson.str (b_id b)) (bet Sample.busy_database)).
Proof.
  destruct (ledger_rows_match_bets Sample.busy_requests
              Sample.fresh_world Sample.busy_database
              eq_refl sample_busy_db)
    as (_ & _ & Hlink & Hnd & Hprinted).
  split; [vm_compute; reflexivity|].
  split; [vm_compute; reflexivity|].
  split; [exact Hlink|]. split; [exact Hnd|].
  apply Hprinted. vm_compute. discriminate.
Defined.

(** ** One user at a time *)

Lemma find_one_by_id_other (o o' : Bson.oid) (b : float) (t : datetime)
  (users : list UserDoc) :
  o' <> o ->
  Collection.find_one (by_id o')
    (Collection.update_one (by_id o) (set_balance b t) users)
  = Collection.find_one (by_id o') users.
Proof.
  intros Hne. apply find_one_update_one_other; [reflexivity|].
  intros x Hx. unfold by_id in *. apply N.eqb_eq in Hx.
  apply N.eqb_neq. congruence.
Qed.

(** X19.  A request changes no user document but the one it names: a user
    stored under an identifier is stored unchanged after any request,
    unless the request is a top-up or a bet whose user id reads as that
    identifier. *)
Theorem other_users_untouched (r : Request) (w : World) (o : Bson.oid)
  (u : UserDoc) :
  stored_user o w = Some u ->
  request_user r <> Some o ->
  stored_user o (serve r w) = Some u.
Proof.
  unfold stored_user. intros Hu Hother.
  destruct (db w) as [d|] eqn:Hdb; [|discriminate].
  destruct r as [p|p|i|p|i n| |i|p]; cbn [serve request_user] in *.
  - rewrite (register_user_cases p w), Hdb.
    destruct (Collection.find_one (by_phone (reg_phone p)) (user d));
      cbn; [now rewrite Hdb|].
    now apply find_one_app_l.
  - rewrite (login_user_available p w d Hdb). cbn. now rewrite Hdb.
  - rewrite (get_user_available i w d Hdb). cbn. now rewrite Hdb.
  - rewrite (topup_wallet_cases p w), Hdb.
    destruct (Bson.ObjectId (topup_user_id p)) as [[o'|]|];
      [|cbn; now rewrite Hdb|cbn; now rewrite Hdb].
    destruct (Collection.find_one (by_id o') (user d)) as [u'|];
      [|cbn; now rewrite Hdb].
    cbn. rewrite find_one_by_id_other; [exact Hu | congruence].
  - rewrite (list_transactions_available i n w d Hdb). cbn.
    now rewrite Hdb.
  - rewrite (list_matches_available w d Hdb). cbn. now rewrite Hdb.
  - rewrite (list_bets_available i w d Hdb). cbn. now rewrite Hdb.
  - rewrite (place_bet_cases p w), Hdb.
    destruct (Bson.ObjectId (bet_user_id p)) as [[o'|]|];
      [|cbn; now rewrite Hdb|cbn; now rewrite Hdb].
    destruct (Collection.find_one (by_id o') (user d)) as [u'|];
      [|cbn; now rewrite Hdb].
    destruct (bet_selections p); [cbn; now rewrite Hdb|].
    destruct (List.existsb _ _); [cbn; now rewrite Hdb|].
    destruct (PrimFloat.ltb _ _); [cbn; now rewrite Hdb|].
    cbn. rewrite find_one_by_id_other; [exact Hu | congruence].
Qed.

Lemma sample_busy_abebe :
  stored_user 0%N Sample.busy = Some Sample.abebe_busy.
Proof. vm_compute. reflexivity. Qed.

Lemma other_users_untouched_witness :
  stored_user 0%N Sample.busy = Some Sample.abebe_busy /\
  fst (topup_wallet (Sample.topup_of Sample.kebede_id 5) Sample.busy)
  = Return {| topup_balance := 20 |} /\
  stored_user 0%N
    (serve (TopUp (Sample.topup_of Sample.kebede_id 5)) Sample.busy)
  = Some Sample.abebe_busy /\
  fst (place_bet (Sample.wager_of Sample.kebede_id 5 [2]%float) Sample.busy)
  = Return {| resp_bet_id := "000000000000000000000008";
              resp_potential_return := 10;
              resp_bet_balance := 10 |} /\
  stored_user 0%N
    (serve (PlaceBet (Sample.wager_of Sample.kebede_id 5 [2]%float))
       Sample.busy)
  = Some Sample.abebe_busy /\
  fst (register_user Sample.hana Sample.busy)
  = Return {| resp_user_id := "000000000000000000000008";
              resp_name := "Hana"; resp_phone := "+251911000003";
              resp_balance := 0 |} /\
  stored_user 0%N (serve (Register Sample.hana) Sample.busy)
  = Some Sample.abebe_busy.
Proof.
  split; [exact sample_busy_abebe|].
  split; [vm_compute; reflexivity|].
  split.
  { apply (other_users_untouched
             (TopUp (Sample.topup_of Sample.kebede_id 5)) Sample.busy
             0%N Sample.abebe_busy sample_busy_abebe).
    vm_compute. discriminate. }
  split; [vm_compute; reflexivity|].
  split.
  { apply (other_users_untouched
             (PlaceBet (Sample.wager_of Sample.kebede_id 5 [2]%float))
             Sample.busy 0%N Sample.abebe_busy sample_busy_abebe).
    vm_compute. discriminate. }
  split; [vm_compute; reflexivity|].
  apply (other_users_untouched (Register Sample.hana) Sample.busy
           0%N Sample.abebe_busy sample_busy_abebe).
  discriminate.
Defined.

(** ** Login, top-up, login *)

Lemma NoDup_map_inj {A B} (f : A -> B) (l : list A) (x y : A) :
  NoDup (List.map f l) -> In x l -> In y l -> f x = f y -> x = y.
Proof.
  induction l as [|a rest IH]; simpl; intros Hnd Hx Hy Hf; [contradiction|].
  inversion Hnd as [|? ? Hnotin Hrest]; subst.
  destruct Hx as [-> | Hx], Hy as [-> | Hy]; auto.
  - exfalso. apply Hnotin. rewrite Hf. now apply List.in_map.
  - exfalso. apply Hnotin. rewrite <- Hf. now apply List.in_map.
Qed.

(** When both filters find the same document, the rewriting of the one
    shows through the other, if it keeps the other filter's verdicts. *)
Lemma find_one_update_one_same {D} (p q : D -> bool) (f : D -> D)
  (docs : list D) (u : D) :
  (forall x, q (f x) = q x) ->
  Collection.find_one p docs = Some u ->
  Collection.find_one q docs = Some u ->
  Collection.find_one q (Collection.update_one p f docs) = Some (f u).
Proof.
  intros Hq. unfold Collection.find_one.
  induction docs as [|x rest IH]; simpl; [discriminate|].
  destruct (p x) eqn:Hp; intros Hfp Hfq.
  - injection Hfp as <-. simpl. rewrite Hq.
    destruct (q x) eqn:Hqx; [reflexivity|].
    apply List.find_some in Hfq. destruct Hfq as [_ Hqx']. congruence.
  - simpl. destruct (q x) eqn:Hqx.
    + injection Hfq as <-. apply List.find_some in Hfp.
      destruct Hfp as [_ Hp']. congruence.
    + now apply IH.
Qed.

(** X20.  When no two users share an identifier (and identifiers fit 12
    bytes): if [login_user] with a phone returned a response and
    [topup_wallet] for the [user_id] of that response then returned, the
    balance it returned is the balance of the response plus the amount,
    and the next [login_user] with the phone returns the same identifier,
    name and phone with that new balance. *)
Theorem login_reflects_topup (phone : string) (amount : float)
  (w w' : World) (d : Database) (r : UserResponse) (tr : TopupResponse) :
  db w = Some d ->
  NoDup (List.map u_id (user d)) ->
  (forall u, In u (user d) -> (u_id u < 16 ^ 24)%N) ->
  login_user {| login_phone := phone |} w = (Return r, w) ->
  topup_wallet {| topup_user_id := resp_user_id r;
                  topup_amount := amount |} w = (Return tr, w') ->
  topup_balance tr = PrimFloat.add (resp_balance r) amount /\
  login_user {| login_phone := phone |} w'
  = (Return {| resp_user_id := resp_user_id r; resp_name := resp_name r;
               resp_phone := resp_phone r;
               resp_balance := topup_balance tr |}, w').
Proof.
  intros Hdb Hnd Hfit Hlogin Htop.
  rewrite (login_user_available _ w d Hdb) in Hlogin.
  cbn [login_phone] in Hlogin.
  destruct (Collection.find_one (by_phone phone) (user d)) as [up|] eqn:Hup;
    [|discriminate].
  pose proof (f_equal fst Hlogin) as Hr. cbn [fst] in Hr.
  injection Hr as <-.
  destruct (find_one_by_phone_in _ _ _ Hup) as [Hin Hphone].
  rewrite (topup_wallet_cases _ w), Hdb in Htop.
  cbn [topup_user_id topup_amount user_response resp_user_id] in Htop.
  rewrite (ObjectId_str _ (Hfit up Hin)) in Htop.
  destruct (Collection.find_one (by_id (u_id up)) (user d)) as [u|] eqn:Hu;
    [|discriminate].
  destruct (find_one_by_id _ _ _ Hu) as [Hin' Hid'].
  assert (u = up) as -> by (apply (NoDup_map_inj u_id (user d)); auto).
  pose proof (f_equal fst Htop) as Htr.
  pose proof (f_equal snd Htop) as Hw'.
  cbn [fst snd] in Htr, Hw'. injection Htr as <-. subst w'.
  split; [reflexivity|].
  rewrite (login_user_available _ (topped_world _ w d (u_id up) up) _
             eq_refl).
  cbn [login_phone user topup_amount].
  rewrite (find_one_update_one_same (by_id (u_id up)) (by_phone phone)
             _ (user d) up); auto.
Qed.

Lemma sample_login_run :
  login_user {| login_phone := "+251911000001" |} Sample.after_50
  = (Return {| resp_user_id := Sample.abebe_id; resp_name := "Abebe";
               resp_phone := "+251911000001"; resp_balance := 50 |},
     Sample.after_50).
Proof. vm_compute. reflexivity. Qed.

Lemma sample_topup_run :
  topup_wallet (Sample.topup 25) Sample.after_50
  = (Return {| topup_balance := 75 |}, Sample.after_75).
Proof. vm_compute. reflexivity. Qed.

Lemma sample_after_50_db :
  db Sample.after_50 = Some sample_after_50_database.
Proof. vm_compute. reflexivity. Qed.

Lemma sample_after_50_ids :
  NoDup (List.map u_id (user sample_after_50_database)) /\
  (forall u, In u (user sample_after_50_database) ->
     (u_id u < 16 ^ 24)%N).
Proof.
  assert (List.map u_id (user sample_after_50_database) = [0%N]) as Hids
    by (vm_compute; reflexivity).
  split.
  - rewrite Hids. constructor; [intros [] | constructor].
  - intros u Hin. apply (List.in_map u_id) in Hin. rewrite Hids in Hin.
    destruct Hin as [<- | []]. reflexivity.
Qed.

Lemma login_reflects_topup_witness :
  login_user {| login_phone := "+251911000001" |} Sample.after_75
  = (Return {| resp_user_id := Sample.abebe_id; resp_name := "Abebe";
               resp_phone := "+251911000001"; resp_balance := 75 |},
     Sample.after_75).
Proof.
  exact (proj2 (login_reflects_topup "+251911000001" 25
                  Sample.after_50 Sample.after_75
                  sample_after_50_database
                  {| resp_user_id := Sample.abebe_id; resp_name := "Abebe";
                     resp_phone := "+251911000001"; resp_balance := 50 |}
                  {| topup_balance := 75 |}
                  sample_after_50_db
                  (proj1 sample_after_50_ids) (proj2 sample_after_50_ids)
                  sample_login_run sample_topup_run)).
Defined.
